(** * University records: a shallow embedding of [annotation.ts]

    The TypeScript program is a set of classes ([University], [Course],
    [Group], [Person], [Teacher], [Student]) whose instances are mutable
    objects compared by reference.  The embedding keeps that shape:

    - every object lives in a store, at an address ([ref]); arrays of objects
      are lists of addresses and [===] / [includes] on objects compare
      addresses;
    - a method is a computation over the store that returns, throws, or gets
      stuck on a dangling address (which no TypeScript program can build);
    - [number] fields that hold arbitrary user data ([credits],
      [totalCredits], [gpa]) are IEEE 754 binary64 values; identifiers, array
      lengths and array indices are numbers that hold integers, and are kept
      as these integers, in [Z] and [nat]; the counter [Person.nextId] that
      assigns the identifiers is kept as the integer it holds and advanced
      by the binary64 addition of 1. *)

From Stdlib Require Import ZArith Lia Sorted.
From Stdlib Require Import Floats.SpecFloat.
From stdpp Require Import gmap strings list fin_maps.

Local Open Scope string_scope.
Local Open Scope list_scope.
Local Open Scope Z_scope.

(** ** Numbers *)

(** A JavaScript [number] is a binary64 float: 53 bits of precision and
    exponents below 1024. *)
Module Number.
Definition number : Type := spec_float.

Definition prec : Z := 53.
Definition emax : Z := 1024.

Definition NaN : number := S754_nan.
Definition of_Z (z : Z) : number := binary_normalize prec emax z 0 false.
Definition add (x y : number) : number := SFadd prec emax x y.
Definition div (x y : number) : number := SFdiv prec emax x y.

(** The integer a number holds, when it holds one. *)
Definition to_Z (x : number) : Z :=
  match x with
  | S754_finite s m e => cond_Zopp s (Z.shiftl (Zpos m) e)
  | _ => 0
  end.

(** [n++] on a number that holds the integer [n]: the integer that the
    binary64 sum of [n] and 1 holds. *)
Definition increment (n : Z) : Z := to_Z (add (of_Z n) (of_Z 1)).

(** 2^53: up to here every integer is a binary64 number, and adding 1 to
    it gives it back. *)
Definition exact_limit : Z := 2 ^ prec.
End Number.
Abbreviation number := Number.number.

(** ** Enumerations and constants *)

Module Roles.
Definition student : string := "student".
Definition teacher : string := "teacher".
End Roles.

Module AcademicStatus.
Definition active : string := "active".
Definition academicLeave : string := "academicLeave".
Definition graduated : string := "graduated".
Definition expelled : string := "expelled".
End AcademicStatus.

(** ** Data model *)

(** Object identity. *)
Abbreviation ref := positive.

(** What the getters [getFullYear], [getMonth] (0 to 11) and [getDate]
    return for a [Date]. *)
Record Date := mkDate {
  getFullYear : Z;
  getMonth : Z;
  getDate : Z
}.

Record ContactInfo := mkContactInfo {
  email : string;
  phone : string
}.

Definition defaultContact : ContactInfo :=
  {| email := "info@university.com"; phone := "+380955555555" |}.

Record AcademicPerformance := mkAcademicPerformance {
  totalCredits : number;
  gpa : number
}.

(** [FullPersonInfo = PersonInfo & ContactInfo]. *)
Record FullPersonInfo := mkFullPersonInfo {
  info_firstName : string;
  info_lastName : string;
  info_birthDay : Date;
  info_gender : string;
  info_email : string;
  info_phone : string
}.

Record Course := mkCourse {
  Course_name : string;
  Course_credits : number;
  Course_discipline : string
}.

(** The fields every [Person] has. *)
Record Person := mkPerson {
  Person_firstName : string;
  Person_lastName : string;
  Person_birthDay : Date;
  Person_id : Z;
  Person_gender : string;
  Person_contactInfo : ContactInfo;
  Person_role : string
}.

(** The fields [Teacher] adds. *)
Record TeacherFields := mkTeacherFields {
  Teacher_specializations : list string;
  Teacher_courses : list ref
}.

(** The fields [Student] adds. *)
Record StudentFields := mkStudentFields {
  Student_academicPerformance : AcademicPerformance;
  Student_enrolledCourses : list ref;
  Student_status : string
}.

(** [type People = Person | Teacher | Student]. *)
Inductive People :=
  | IsPerson (p : Person)
  | IsTeacher (p : Person) (t : TeacherFields)
  | IsStudent (p : Person) (s : StudentFields).

Definition as_Person (o : People) : Person :=
  match o with
  | IsPerson p | IsTeacher p _ | IsStudent p _ => p
  end.

Record Group := mkGroup {
  Group_name : string;
  Group_course : ref;
  Group_teacher : ref;
  Group_students : list ref
}.

Record University := mkUniversity {
  University_name : string;
  University_courses : list ref;
  University_groups : list ref;
  University_people : list ref
}.

(** ** The store *)

(** One table of live objects per class, and the static [Person.nextId],
    as the integer the counter holds: it starts at 1 and [nextId++] is all
    that changes it, so it holds an integer from 1 to 2^53. *)
Record Store := mkStore {
  the_courses : gmap ref Course;
  the_people : gmap ref People;
  the_groups : gmap ref Group;
  the_universities : gmap ref University;
  Person_nextId : Z
}.

(** The store when the program starts: no objects, [nextId = 1]. *)
Definition initial : Store :=
  {| the_courses := ∅; the_people := ∅; the_groups := ∅;
     the_universities := ∅; Person_nextId := 1 |}.

(** ** Computations *)

Inductive Exn :=
  | UniversityError (message : string)
  | Error (message : string).

Inductive Outcome (A : Type) :=
  | Return (a : A) (σ : Store)
  | Throw (e : Exn) (σ : Store)
  | Stuck.
Arguments Return {A} a σ.
Arguments Throw {A} e σ.
Arguments Stuck {A}.

Definition M (A : Type) : Type := Store → Outcome A.

Definition ret {A} (a : A) : M A := λ σ, Return a σ.

Definition bind {A B} (c : M A) (k : A → M B) : M B :=
  λ σ, match c σ with
       | Return a σ' => k a σ'
       | Throw e σ' => Throw e σ'
       | Stuck => Stuck
       end.

Definition throw {A} (e : Exn) : M A := λ σ, Throw e σ.

Declare Scope js_scope.
Delimit Scope js_scope with js.
Notation "x <- c ;; k" := (bind c (λ x, k))
  (at level 100, c at next level, right associativity) : js_scope.
Notation "c ;; k" := (bind c (λ _, k))
  (at level 100, right associativity) : js_scope.
Local Open Scope js_scope.

(** Reading and writing an object through its address. *)
Definition deref {A} (table : Store → gmap ref A) (r : ref) : M A :=
  λ σ, match table σ !! r with
       | Some o => Return o σ
       | None => Stuck
       end.

Definition set_courses (f : gmap ref Course → gmap ref Course) (σ : Store) : Store :=
  {| the_courses := f (the_courses σ); the_people := the_people σ;
     the_groups := the_groups σ; the_universities := the_universities σ;
     Person_nextId := Person_nextId σ |}.

Definition set_people (f : gmap ref People → gmap ref People) (σ : Store) : Store :=
  {| the_courses := the_courses σ; the_people := f (the_people σ);
     the_groups := the_groups σ; the_universities := the_universities σ;
     Person_nextId := Person_nextId σ |}.

Definition set_groups (f : gmap ref Group → gmap ref Group) (σ : Store) : Store :=
  {| the_courses := the_courses σ; the_people := the_people σ;
     the_groups := f (the_groups σ); the_universities := the_universities σ;
     Person_nextId := Person_nextId σ |}.

Definition set_universities
    (f : gmap ref University → gmap ref University) (σ : Store) : Store :=
  {| the_courses := the_courses σ; the_people := the_people σ;
     the_groups := the_groups σ; the_universities := f (the_universities σ);
     Person_nextId := Person_nextId σ |}.

Definition set_nextId (n : Z) (σ : Store) : Store :=
  {| the_courses := the_courses σ; the_people := the_people σ;
     the_groups := the_groups σ; the_universities := the_universities σ;
     Person_nextId := n |}.

(** Allocation of a new object at an address no live object has. *)
Definition alloc_course (o : Course) : M ref :=
  λ σ, let r := fresh (dom (the_courses σ)) in
       Return r (set_courses (insert r o) σ).

Definition alloc_people (o : People) : M ref :=
  λ σ, let r := fresh (dom (the_people σ)) in
       Return r (set_people (insert r o) σ).

Definition alloc_group (o : Group) : M ref :=
  λ σ, let r := fresh (dom (the_groups σ)) in
       Return r (set_groups (insert r o) σ).

Definition alloc_university (o : University) : M ref :=
  λ σ, let r := fresh (dom (the_universities σ)) in
       Return r (set_universities (insert r o) σ).

(** Assignment to the fields of the object [this] points to. *)
Definition update_university (this : ref) (f : University → University) : M unit :=
  λ σ, match the_universities σ !! this with
       | Some u => Return tt (set_universities (insert this (f u)) σ)
       | None => Stuck
       end.

Definition update_group (this : ref) (f : Group → Group) : M unit :=
  λ σ, match the_groups σ !! this with
       | Some g => Return tt (set_groups (insert this (f g)) σ)
       | None => Stuck
       end.

Definition update_teacher (this : ref) (f : TeacherFields → TeacherFields) : M unit :=
  λ σ, match the_people σ !! this with
       | Some (IsTeacher p t) =>
           Return tt (set_people (insert this (IsTeacher p (f t))) σ)
       | _ => Stuck
       end.

Definition update_student (this : ref) (f : StudentFields → StudentFields) : M unit :=
  λ σ, match the_people σ !! this with
       | Some (IsStudent p s) =>
           Return tt (set_people (insert this (IsStudent p (f s))) σ)
       | _ => Stuck
       end.

(** Reading an object at a class it must have. *)
Definition the_person (r : ref) : M Person :=
  o <- deref the_people r ;; ret (as_Person o).

Definition the_teacher (r : ref) : M TeacherFields :=
  o <- deref the_people r ;;
  match o with
  | IsTeacher _ t => ret t
  | _ => λ _, Stuck
  end.

Definition the_student (r : ref) : M StudentFields :=
  o <- deref the_people r ;;
  match o with
  | IsStudent _ s => ret s
  | _ => λ _, Stuck
  end.

(** ** Arrays *)

(** The methods of [Array.prototype] the program calls.  A callback may read
    the store, so it is a computation. *)
Module Array.
Section Methods.
Context {A : Type}.

Definition push (x : A) (l : list A) : list A := l ++ [x].

Fixpoint find (callback : A → M bool) (l : list A) : M (option A) :=
  match l with
  | [] => ret None
  | x :: l' =>
      b <- callback x ;;
      if b : bool then ret (Some x) else find callback l'
  end.

(** [findIndex], with the index of the head of [l] in [i]. *)
Fixpoint findIndex_from (i : Z) (callback : A → M bool) (l : list A) : M Z :=
  match l with
  | [] => ret (-1)
  | x :: l' =>
      b <- callback x ;;
      if b : bool then ret i else findIndex_from (i + 1) callback l'
  end.

Definition findIndex (callback : A → M bool) (l : list A) : M Z :=
  findIndex_from 0 callback l.

Fixpoint filter (callback : A → M bool) (l : list A) : M (list A) :=
  match l with
  | [] => ret []
  | x :: l' =>
      b <- callback x ;;
      rest <- filter callback l' ;;
      ret (if b : bool then x :: rest else rest)
  end.

Fixpoint reduce {B} (callback : B → A → M B) (initialValue : B) (l : list A) : M B :=
  match l with
  | [] => ret initialValue
  | x :: l' =>
      acc <- callback initialValue x ;;
      reduce callback acc l'
  end.

(** [splice(start, deleteCount)]: a negative [start] counts from the end
    of the array. *)
Definition splice (start : Z) (deleteCount : nat) (l : list A) : list A :=
  let len := Z.of_nat (length l) in
  let from :=
    Z.to_nat (if start <? 0 then Z.max (len + start) 0 else Z.min start len) in
  take from l ++ drop (from + deleteCount) l.
End Methods.

(** [includes] on an array of objects or of integers. *)
Definition includes (x : ref) (l : list ref) : bool := existsb (Pos.eqb x) l.
Definition includes_number (x : Z) (l : list Z) : bool := existsb (Z.eqb x) l.
End Array.

(** ** The classes *)

Module University.
(** [new University(name)]. *)
Definition new (name : string) : M ref :=
  alloc_university
    {| University_name := name; University_courses := [];
       University_groups := []; University_people := [] |}.

Definition this_courses_push (course : ref) (u : University) : University :=
  {| University_name := University_name u;
     University_courses := Array.push course (University_courses u);
     University_groups := University_groups u;
     University_people := University_people u |}.

Definition this_groups_push (group : ref) (u : University) : University :=
  {| University_name := University_name u;
     University_courses := University_courses u;
     University_groups := Array.push group (University_groups u);
     University_people := University_people u |}.

Definition this_people_push (person : ref) (u : University) : University :=
  {| University_name := University_name u;
     University_courses := University_courses u;
     University_groups := University_groups u;
     University_people := Array.push person (University_people u) |}.

Definition addCourse (this course : ref) : M unit :=
  update_university this (this_courses_push course).

Definition addGroup (this group : ref) : M unit :=
  update_university this (this_groups_push group).

Definition addPerson (this person : ref) : M unit :=
  update_university this (this_people_push person).

(** [undefined] is [None]. *)
Definition findGroupByCourse (this course : ref) : M (option ref) :=
  u <- deref the_universities this ;;
  Array.find
    (λ group, g <- deref the_groups group ;; ret (Pos.eqb (Group_course g) course))
    (University_groups u).

Definition assertNeverRole {A} (role : string) : M A :=
  throw (Error ("Unhandled role: " ++ role)).

Definition getAllPeopleByRole (this : ref) (role : string) : M (list ref) :=
  u <- deref the_universities this ;;
  if String.eqb role Roles.student then
    Array.filter
      (λ person, p <- the_person person ;; ret (String.eqb (Person_role p) Roles.student))
      (University_people u)
  else if String.eqb role Roles.teacher then
    Array.filter
      (λ person, p <- the_person person ;; ret (String.eqb (Person_role p) Roles.teacher))
      (University_people u)
  else assertNeverRole role.
End University.

Module Course.
(** [new Course(name, credits, discipline)]. *)
Definition new (name : string) (credits : number) (discipline : string) : M ref :=
  alloc_course
    {| Course_name := name; Course_credits := credits;
       Course_discipline := discipline |}.
End Course.

Module Person.
(** The constructor body: it fills the fields and advances the static
    counter ([this.id = Person.nextId++]). *)
Definition constructor (info : FullPersonInfo) (role : string) : M Person :=
  λ σ, let nextId := Person_nextId σ in
       Return
         {| Person_firstName := info_firstName info;
            Person_lastName := info_lastName info;
            Person_birthDay := info_birthDay info;
            Person_id := nextId;
            Person_gender := info_gender info;
            Person_contactInfo :=
              {| email := info_email info; phone := info_phone info |};
            Person_role := role |}
         (set_nextId (Number.increment nextId) σ).

(** [new Person(info, role)]. *)
Definition new (info : FullPersonInfo) (role : string) : M ref :=
  p <- constructor info role ;; alloc_people (IsPerson p).

Definition fullName (this : Person) : string :=
  Person_lastName this ++ " " ++ Person_firstName this.

(** The getter [age]; [today] is what [new Date()] gives when it runs. *)
Definition age (today : Date) (this : Person) : Z :=
  let age := getFullYear today - getFullYear (Person_birthDay this) in
  let monthDiff := getMonth today - getMonth (Person_birthDay this) in
  if (monthDiff <? 0)
     || ((monthDiff =? 0) && (getDate today <? getDate (Person_birthDay this)))
  then age - 1
  else age.
End Person.

Module Teacher.
(** [new Teacher(info, specializations)]; [specializations] is [[]] when
    the caller leaves it out. *)
Definition new (info : FullPersonInfo) (specializations : list string) : M ref :=
  p <- Person.constructor info Roles.teacher ;;
  alloc_people
    (IsTeacher p
       {| Teacher_specializations := specializations; Teacher_courses := [] |}).

Definition set_courses (courses : list ref) (t : TeacherFields) : TeacherFields :=
  {| Teacher_specializations := Teacher_specializations t;
     Teacher_courses := courses |}.

Definition assignCourse (this course : ref) : M unit :=
  update_teacher this (λ t, set_courses (Array.push course (Teacher_courses t)) t).

Definition removeCourse (this : ref) (courseName : string) : M unit :=
  t <- the_teacher this ;;
  kept <- Array.filter
            (λ course, c <- deref the_courses course ;;
                       ret (negb (String.eqb (Course_name c) courseName)))
            (Teacher_courses t) ;;
  update_teacher this (set_courses kept).

Definition getCourses (this : ref) : M (list ref) :=
  t <- the_teacher this ;; ret (Teacher_courses t).
End Teacher.

Module Student.
(** [new Student(info)]. *)
Definition new (info : FullPersonInfo) : M ref :=
  p <- Person.constructor info Roles.student ;;
  alloc_people
    (IsStudent p
       {| Student_academicPerformance :=
            {| totalCredits := Number.of_Z 0; gpa := Number.of_Z 0 |};
          Student_enrolledCourses := [];
          Student_status := AcademicStatus.active |}).

Definition enrolledCourses_push (course : ref) (s : StudentFields) : StudentFields :=
  {| Student_academicPerformance := Student_academicPerformance s;
     Student_enrolledCourses := Array.push course (Student_enrolledCourses s);
     Student_status := Student_status s |}.

Definition totalCredits_add (credits : number) (s : StudentFields) : StudentFields :=
  {| Student_academicPerformance :=
       {| totalCredits :=
            Number.add (totalCredits (Student_academicPerformance s)) credits;
          gpa := gpa (Student_academicPerformance s) |};
     Student_enrolledCourses := Student_enrolledCourses s;
     Student_status := Student_status s |}.

Definition set_status (newStatus : string) (s : StudentFields) : StudentFields :=
  {| Student_academicPerformance := Student_academicPerformance s;
     Student_enrolledCourses := Student_enrolledCourses s;
     Student_status := newStatus |}.

Definition enrollCourse (this course : ref) : M unit :=
  s <- the_student this ;;
  if negb (String.eqb (Student_status s) AcademicStatus.active) then
    throw (UniversityError "Cannot enroll: Student is not in active status")
  else
    update_student this (enrolledCourses_push course) ;;
    c <- deref the_courses course ;;
    update_student this (totalCredits_add (Course_credits c)).

Definition getAverageScore (this : ref) : M number :=
  s <- the_student this ;; ret (gpa (Student_academicPerformance s)).

Definition updateAcademicStatus (this : ref) (newStatus : string) : M unit :=
  update_student this (set_status newStatus).

Definition getEnrolledCourses (this : ref) : M (list ref) :=
  s <- the_student this ;; ret (Student_enrolledCourses s).
End Student.

Module Group.
(** [new Group(name, course, teacher)]. *)
Definition new (name : string) (course teacher : ref) : M ref :=
  alloc_group
    {| Group_name := name; Group_course := course; Group_teacher := teacher;
       Group_students := [] |}.

Definition set_students (students : list ref) (g : Group) : Group :=
  {| Group_name := Group_name g; Group_course := Group_course g;
     Group_teacher := Group_teacher g; Group_students := students |}.

Definition addStudent (this student : ref) : M unit :=
  g <- deref the_groups this ;;
  if Array.includes student (Group_students g) then
    throw (UniversityError "Student is already in the group")
  else
    update_group this (λ g, set_students (Array.push student (Group_students g)) g).

(** [!~index] holds exactly when [index] is [-1]. *)
Definition removeStudentById (this : ref) (id : Z) : M unit :=
  g <- deref the_groups this ;;
  index <- Array.findIndex
             (λ student, p <- the_person student ;; ret (Person_id p =? id))
             (Group_students g) ;;
  if Z.lnot index =? 0 then
    throw (UniversityError "Student not found in group")
  else
    update_group this (λ g, set_students (Array.splice index 1 (Group_students g)) g).

Definition getAverageGroupScore (this : ref) : M number :=
  g <- deref the_groups this ;;
  if negb (Nat.eqb (length (Group_students g)) 0) then
    ret (Number.of_Z 0)
  else
    totalScore <- Array.reduce
                    (λ sum student,
                       score <- Student.getAverageScore student ;;
                       ret (Number.add sum score))
                    (Number.of_Z 0)
                    (Group_students g) ;;
    ret (Number.div totalScore
           (Number.of_Z (Z.of_nat (length (Group_students g))))).

Definition getStudents (this : ref) : M (list ref) :=
  g <- deref the_groups this ;; ret (Group_students g).

(** The argument is a [number] or a [number[]]; the result has the
    matching shape. *)
Definition getStudentById (this : ref) (identifier : Z + list Z)
    : M (option ref + list ref) :=
  g <- deref the_groups this ;;
  match identifier with
  | inl identifier =>
      found <- Array.find
                 (λ student, p <- the_person student ;;
                             ret (Person_id p =? identifier))
                 (Group_students g) ;;
      ret (inl found)
  | inr identifier =>
      found <- Array.filter
                 (λ student, p <- the_person student ;;
                             ret (Array.includes_number (Person_id p) identifier))
                 (Group_students g) ;;
      ret (inr found)
  end.
End Group.

(** ** Vocabulary of the properties *)

(** The order the specification compares (month, day) pairs with. *)
Definition lex_lt (a b : Z * Z) : Prop :=
  a.1 < b.1 ∨ (a.1 = b.1 ∧ a.2 < b.2).

(** [d1] is an earlier calendar day than [d2]. *)
Definition earlier (d1 d2 : Date) : Prop :=
  getFullYear d1 < getFullYear d2
  ∨ (getFullYear d1 = getFullYear d2
     ∧ lex_lt (getMonth d1, getDate d1) (getMonth d2, getDate d2)).

(** A person born on 15 June 2000. *)
Definition born_mid_june_2000 : Person :=
  {| Person_firstName := "Bo"; Person_lastName := "Kim";
     Person_birthDay := mkDate 2000 5 15; Person_id := 1;
     Person_gender := "male"; Person_contactInfo := defaultContact;
     Person_role := Roles.student |}.

(** What a fourth person of [campus] is built from. *)
Definition di_poe : FullPersonInfo :=
  {| info_firstName := "Di"; info_lastName := "Poe";
     info_birthDay := mkDate 2002 8 1; info_gender := "female";
     info_email := email defaultContact; info_phone := phone defaultContact |}.

(** What [Student.enrollCourse] leaves in a student who had the fields [s],
    for a course with [credits] credits. *)
Definition enrolled (course : ref) (credits : number) (s : StudentFields) : StudentFields :=
  {| Student_academicPerformance :=
       {| totalCredits :=
            Number.add (totalCredits (Student_academicPerformance s)) credits;
          gpa := gpa (Student_academicPerformance s) |};
     Student_enrolledCourses := Student_enrolledCourses s ++ [course];
     Student_status := Student_status s |}.

(** A new student enrols twice in the same course; the result is
    [totalCredits] before, between and after the two calls, and the final
    [enrolledCourses]. *)
Definition enroll_twice (info : FullPersonInfo) (course : ref)
    : M (number * number * number * list ref) :=
  this <- Student.new info ;;
  s0 <- the_student this ;;
  Student.enrollCourse this course ;;
  s1 <- the_student this ;;
  Student.enrollCourse this course ;;
  s2 <- the_student this ;;
  ret (totalCredits (Student_academicPerformance s0),
       totalCredits (Student_academicPerformance s1),
       totalCredits (Student_academicPerformance s2),
       Student_enrolledCourses s2).

(** The fields of the student at [r], if [r] is a student. *)
Definition the_student_of (σ : Store) (r : ref) : option StudentFields :=
  match the_people σ !! r with
  | Some (IsStudent _ s) => Some s
  | _ => None
  end.

(** The roster of the group at [this]. *)
Definition roster (σ : Store) (this : ref) : option (list ref) :=
  Group_students <$> the_groups σ !! this.

(** A small campus, built with the program's own operations: three courses
    (the first of 5 credits, the last taught to no group), a teacher, two
    groups (the first with one active student, the second empty), and a
    student on academic leave.  Each class numbers its objects from 1 in
    the order they are built. *)
Definition build_campus : M unit :=
  algebra <- Course.new "Algebra" (Number.of_Z 5) "Mathematics" ;;
  logic <- Course.new "Logic" (Number.of_Z 3) "Mathematics" ;;
  optics <- Course.new "Optics" (Number.of_Z 4) "Physics" ;;
  lee <- Teacher.new
           (mkFullPersonInfo "Ann" "Lee" (mkDate 1980 0 31) "female"
              (email defaultContact) (phone defaultContact))
           ["Mathematics"] ;;
  kim <- Student.new
           (mkFullPersonInfo "Bo" "Kim" (mkDate 2000 5 15) "male"
              (email defaultContact) (phone defaultContact)) ;;
  roe <- Student.new
           (mkFullPersonInfo "Cy" "Roe" (mkDate 2001 1 28) "male"
              (email defaultContact) (phone defaultContact)) ;;
  a1 <- Group.new "A-1" algebra lee ;;
  b1 <- Group.new "B-1" logic lee ;;
  Group.addStudent a1 kim ;;
  Student.updateAcademicStatus roe AcademicStatus.academicLeave ;;
  kpi <- University.new "KPI" ;;
  University.addCourse kpi algebra ;;
  University.addCourse kpi logic ;;
  University.addCourse kpi optics ;;
  University.addGroup kpi b1 ;;
  University.addGroup kpi a1 ;;
  University.addPerson kpi lee ;;
  University.addPerson kpi kim ;;
  University.addPerson kpi roe.

Definition campus : Store :=
  Eval vm_compute in
    match build_campus initial with
    | Return _ σ => σ
    | _ => initial
    end.

(** What the fields of the object at an address hold, when the address is
    live. *)
Definition role_of (σ : Store) (person : ref) : option string :=
  Person_role ∘ as_Person <$> the_people σ !! person.

Definition id_of (σ : Store) (person : ref) : option Z :=
  Person_id ∘ as_Person <$> the_people σ !! person.

Definition course_of (σ : Store) (group : ref) : option ref :=
  Group_course <$> the_groups σ !! group.

(** Every address of [l] is live in [table]. *)
Definition live {A} (table : gmap ref A) (l : list ref) : Prop :=
  Forall (λ r, is_Some (table !! r)) l.

(** [add_then_remove this s] is
    [this.addStudent(s); this.removeStudentById(s.id)]. *)
Definition add_then_remove (this s : ref) : M unit :=
  Group.addStudent this s ;;
  p <- the_person s ;;
  Group.removeStudentById this (Person_id p).

(** ** Sequences of constructions *)

(** What a program does to the population of [Person] objects: it builds a
    [Person], a [Teacher] or a [Student], or it drops its last reference to
    one, which the run time may then discard. *)
Inductive Step :=
  | NewPerson (info : FullPersonInfo) (role : string)
  | NewTeacher (info : FullPersonInfo) (specializations : list string)
  | NewStudent (info : FullPersonInfo)
  | Discard (person : ref).

Definition discard (person : ref) : M unit :=
  λ σ, Return tt (set_people (delete person) σ).

(** A step, and the identifier of the object it builds. *)
Definition run_step (step : Step) : M (option Z) :=
  match step with
  | NewPerson info role =>
      r <- Person.new info role ;; p <- the_person r ;; ret (Some (Person_id p))
  | NewTeacher info specializations =>
      r <- Teacher.new info specializations ;;
      p <- the_person r ;; ret (Some (Person_id p))
  | NewStudent info =>
      r <- Student.new info ;; p <- the_person r ;; ret (Some (Person_id p))
  | Discard person => discard person ;; ret None
  end.

(** The steps in order, and the identifiers they assign, in that order. *)
Fixpoint run (steps : list Step) : M (list Z) :=
  match steps with
  | [] => ret []
  | step :: steps' =>
      assigned <- run_step step ;;
      ids <- run steps' ;;
      ret (option_list assigned ++ ids)
  end.

Definition is_construction (step : Step) : bool :=
  match step with
  | Discard _ => false
  | _ => true
  end.

(** [first, first + 1, ...], [n] numbers in all. *)
Fixpoint count_from (first : Z) (n : nat) : list Z :=
  match n with
  | O => []
  | S n' => first :: count_from (first + 1) n'
  end.

(** [first] and what [nextId++] makes of it, [n] numbers in all. *)
Fixpoint ids_from (first : Z) (n : nat) : list Z :=
  match n with
  | O => []
  | S n' => first :: ids_from (Number.increment first) n'
  end.

(** No two live people have the same identifier. *)
Definition ids_distinct (σ : Store) : Prop :=
  ∀ (r1 r2 : ref) (i : Z),
    id_of σ r1 = Some i → id_of σ r2 = Some i → r1 = r2.

(** Every live person has an identifier the counter has passed. *)
Definition ids_assigned (σ : Store) : Prop :=
  ∀ (r : ref) (i : Z), id_of σ r = Some i → i < Person_nextId σ.

(** How many objects the steps build. *)
Definition constructions (steps : list Step) : nat :=
  length (List.filter is_construction steps).

(** ** Vocabulary of further properties *)

(** [try { c } catch { }]: a caller that goes on after an exception. *)
Definition try_catch (c : M unit) : M unit :=
  λ σ, match c σ with
       | Return _ σ' | Throw _ σ' => Return tt σ'
       | Stuck => Stuck
       end.

(** The calls that change the roster of a group. *)
Inductive RosterCall :=
  | AddStudent (student : ref)
  | RemoveStudentById (id : Z).

Definition roster_call (this : ref) (call : RosterCall) : M unit :=
  match call with
  | AddStudent student => Group.addStudent this student
  | RemoveStudentById id => Group.removeStudentById this id
  end.

(** The calls in order, each in a [try]. *)
Fixpoint roster_calls (this : ref) (calls : list RosterCall) : M unit :=
  match calls with
  | [] => ret tt
  | call :: calls' =>
      try_catch (roster_call this call) ;; roster_calls this calls'
  end.

(** The students the calls add. *)
Fixpoint added_students (calls : list RosterCall) : list ref :=
  match calls with
  | [] => []
  | AddStudent student :: calls' => student :: added_students calls'
  | RemoveStudentById _ :: calls' => added_students calls'
  end.

(** The assignment [person.id = id], which the public field allows. *)
Definition set_id (id : Z) (o : People) : People :=
  let p :=
    {| Person_firstName := Person_firstName (as_Person o);
       Person_lastName := Person_lastName (as_Person o);
       Person_birthDay := Person_birthDay (as_Person o);
       Person_id := id;
       Person_gender := Person_gender (as_Person o);
       Person_contactInfo := Person_contactInfo (as_Person o);
       Person_role := Person_role (as_Person o) |} in
  match o with
  | IsPerson _ => IsPerson p
  | IsTeacher _ t => IsTeacher p t
  | IsStudent _ s => IsStudent p s
  end.

Definition assign_id (person : ref) (id : Z) : M unit :=
  λ σ, match the_people σ !! person with
       | Some o => Return tt (set_people (insert person (set_id id o)) σ)
       | None => Stuck
       end.

(** [campus] after a third student is built, the three students join its
    second group, and the third is given the identifier 3 of the second:
    the roster is 2, 3, 4 and the identifiers are 2, 3, 3. *)
Definition campus_twins : Store :=
  Eval vm_compute in
    match (di <- Student.new di_poe ;;
           Group.addStudent 2 2 ;; Group.addStudent 2 3 ;;
           Group.addStudent 2 di ;;
           assign_id di 3) campus with
    | Return _ σ => σ
    | _ => campus
    end.

(** [campus] after both its students join its second group. *)
Definition campus_b1 : Store :=
  Eval vm_compute in
    match (Group.addStudent 2 2 ;; Group.addStudent 2 3) campus with
    | Return _ σ => σ
    | _ => campus
    end.

(** The name of the course at an address, and the courses of the teacher at
    an address. *)
Definition name_of (σ : Store) (course : ref) : option string :=
  Course_name <$> the_courses σ !! course.

Definition courses_of (σ : Store) (teacher : ref) : option (list ref) :=
  match the_people σ !! teacher with
  | Some (IsTeacher _ t) => Some (Teacher_courses t)
  | _ => None
  end.

(** [campus] after its teacher is assigned the first course, the second,
    and the first again. *)
Definition campus_lee : Store :=
  Eval vm_compute in
    match (Teacher.assignCourse 1 1 ;; Teacher.assignCourse 1 2 ;;
           Teacher.assignCourse 1 1) campus with
    | Return _ σ => σ
    | _ => campus
    end.

(** The calls that change a student. *)
Inductive StudentCall :=
  | EnrollCourse (course : ref)
  | UpdateAcademicStatus (newStatus : string).

Definition student_call (this : ref) (call : StudentCall) : M unit :=
  match call with
  | EnrollCourse course => Student.enrollCourse this course
  | UpdateAcademicStatus newStatus => Student.updateAcademicStatus this newStatus
  end.

(** The calls in order, each in a [try]. *)
Fixpoint student_calls (this : ref) (calls : list StudentCall) : M unit :=
  match calls with
  | [] => ret tt
  | call :: calls' =>
      try_catch (student_call this call) ;; student_calls this calls'
  end.

(** The courses the calls enrol in. *)
Fixpoint enrolled_courses (calls : list StudentCall) : list ref :=
  match calls with
  | [] => []
  | EnrollCourse course :: calls' => course :: enrolled_courses calls'
  | UpdateAcademicStatus _ :: calls' => enrolled_courses calls'
  end.

(** A student is built, changed by the calls, and asked its average
    score. *)
Definition average_score_after (info : FullPersonInfo) (calls : list StudentCall)
    : M number :=
  this <- Student.new info ;;
  student_calls this calls ;;
  Student.getAverageScore this.

(** The date [years] calendar years after [d]. *)
Definition years_later (years : Z) (d : Date) : Date :=
  {| getFullYear := getFullYear d + years;
     getMonth := getMonth d;
     getDate := getDate d |}.

(** A person is added to a university, which is then asked for the people
    of a role. *)
Definition add_person_then_ask (this person : ref) (role : string) : M (list ref) :=
  University.addPerson this person ;;
  University.getAllPeopleByRole this role.

(** A group is added to a university, which is then asked for the group of
    a course. *)
Definition add_group_then_ask (this group course : ref) : M (option ref) :=
  University.addGroup this group ;;
  University.findGroupByCourse this course.

(** A student is built and added to a university, which is then asked for
    its students and its teachers. *)
Definition register_student (this : ref) (info : FullPersonInfo)
    : M (ref * list ref * list ref) :=
  student <- Student.new info ;;
  University.addPerson this student ;;
  students <- University.getAllPeopleByRole this Roles.student ;;
  teachers <- University.getAllPeopleByRole this Roles.teacher ;;
  ret (student, students, teachers).

(** The same for a teacher. *)
Definition register_teacher (this : ref) (info : FullPersonInfo)
    (specializations : list string) : M (ref * list ref * list ref) :=
  teacher <- Teacher.new info specializations ;;
  University.addPerson this teacher ;;
  students <- University.getAllPeopleByRole this Roles.student ;;
  teachers <- University.getAllPeopleByRole this Roles.teacher ;;
  ret (teacher, students, teachers).

(** A university is built and asked at once. *)
Definition ask_new_university (name role : string) (course : ref)
    : M (list ref * option ref) :=
  this <- University.new name ;;
  people <- University.getAllPeopleByRole this role ;;
  group <- University.findGroupByCourse this course ;;
  ret (people, group).

(** ** Calls that build no person *)

(** Every method of the program, and the constructors of [University],
    [Course] and [Group], with their arguments. *)
Inductive Call :=
  | New_University (name : string)
  | University_addCourse (this course : ref)
  | University_addGroup (this group : ref)
  | University_addPerson (this person : ref)
  | University_findGroupByCourse (this course : ref)
  | University_getAllPeopleByRole (this : ref) (role : string)
  | University_assertNeverRole (this : ref) (role : string)
  | New_Course (name : string) (credits : number) (discipline : string)
  | New_Group (name : string) (course teacher : ref)
  | Group_addStudent (this student : ref)
  | Group_removeStudentById (this : ref) (id : Z)
  | Group_getAverageGroupScore (this : ref)
  | Group_getStudents (this : ref)
  | Group_getStudentById (this : ref) (identifier : Z + list Z)
  | Teacher_assignCourse (this course : ref)
  | Teacher_removeCourse (this : ref) (courseName : string)
  | Teacher_getCourses (this : ref)
  | Student_enrollCourse (this course : ref)
  | Student_getAverageScore (this : ref)
  | Student_updateAcademicStatus (this : ref) (newStatus : string)
  | Student_getEnrolledCourses (this : ref).

(** The call, its result dropped. *)
Definition call (c : Call) : M unit :=
  match c with
  | New_University name => University.new name ;; ret tt
  | University_addCourse this course => University.addCourse this course
  | University_addGroup this group => University.addGroup this group
  | University_addPerson this person => University.addPerson this person
  | University_findGroupByCourse this course =>
      University.findGroupByCourse this course ;; ret tt
  | University_getAllPeopleByRole this role =>
      University.getAllPeopleByRole this role ;; ret tt
  | University_assertNeverRole this role => University.assertNeverRole role
  | New_Course name credits discipline =>
      Course.new name credits discipline ;; ret tt
  | New_Group name course teacher => Group.new name course teacher ;; ret tt
  | Group_addStudent this student => Group.addStudent this student
  | Group_removeStudentById this id => Group.removeStudentById this id
  | Group_getAverageGroupScore this => Group.getAverageGroupScore this ;; ret tt
  | Group_getStudents this => Group.getStudents this ;; ret tt
  | Group_getStudentById this identifier =>
      Group.getStudentById this identifier ;; ret tt
  | Teacher_assignCourse this course => Teacher.assignCourse this course
  | Teacher_removeCourse this courseName => Teacher.removeCourse this courseName
  | Teacher_getCourses this => Teacher.getCourses this ;; ret tt
  | Student_enrollCourse this course => Student.enrollCourse this course
  | Student_getAverageScore this => Student.getAverageScore this ;; ret tt
  | Student_updateAcademicStatus this newStatus =>
      Student.updateAcademicStatus this newStatus
  | Student_getEnrolledCourses this => Student.getEnrolledCourses this ;; ret tt
  end.

(** The counter and the identifiers of the live people are in [σ'] what
    they are in [σ]. *)
Definition same_ids (σ σ' : Store) : Prop :=
  Person_nextId σ' = Person_nextId σ ∧ ∀ r, id_of σ' r = id_of σ r.

(** A computation that, when it returns or throws, leaves the counter and
    the identifiers as it found them. *)
Definition keeps_ids {A} (c : M A) : Prop :=
  ∀ σ, match c σ with
       | Return _ σ' | Throw _ σ' => same_ids σ σ'
       | Stuck => True
       end.

(** The credits of the courses of a list, added from left to right, from 0. *)
Definition credits_sum (σ : Store) (courses : list ref) : number :=
  fold_left
    (λ sum course,
       match the_courses σ !! course with
       | Some c => Number.add sum (Course_credits c)
       | None => sum
       end)
    courses (Number.of_Z 0).

(** A student is built and changed by the calls; the result is its
    fields. *)
Definition student_after (info : FullPersonInfo) (calls : list StudentCall)
    : M StudentFields :=
  this <- Student.new info ;;
  student_calls this calls ;;
  the_student this.

(** * Properties *)

(** ** Stepping through computations *)

Lemma bind_Return {A B} (c : M A) (k : A → M B) σ a σ' :
  c σ = Return a σ' → bind c k σ = k a σ'.
Proof. intros H. unfold bind. by rewrite H. Qed.

Lemma bind_Throw {A B} (c : M A) (k : A → M B) σ e σ' :
  c σ = Throw e σ' → bind c k σ = Throw e σ'.
Proof. intros H. unfold bind. by rewrite H. Qed.

Lemma deref_Some {A} (table : Store → gmap ref A) r o σ :
  table σ !! r = Some o → deref table r σ = Return o σ.
Proof. intros H. unfold deref. by rewrite H. Qed.

Lemma the_person_Some r o σ :
  the_people σ !! r = Some o → the_person r σ = Return (as_Person o) σ.
Proof. intros H. unfold the_person. by rewrite (bind_Return _ _ _ _ _ (deref_Some _ _ _ _ H)). Qed.

Lemma the_student_Some r p s σ :
  the_people σ !! r = Some (IsStudent p s) → the_student r σ = Return s σ.
Proof. intros H. unfold the_student. by rewrite (bind_Return _ _ _ _ _ (deref_Some _ _ _ _ H)). Qed.

Lemma update_student_Some this f p s σ :
  the_people σ !! this = Some (IsStudent p s) →
  update_student this f σ
  = Return tt (set_people (insert this (IsStudent p (f s))) σ).
Proof. intros H. unfold update_student. by rewrite H. Qed.

Lemma update_group_Some this f g σ :
  the_groups σ !! this = Some g →
  update_group this f σ = Return tt (set_groups (insert this (f g)) σ).
Proof. intros H. unfold update_group. by rewrite H. Qed.

Lemma update_university_Some this f u σ :
  the_universities σ !! this = Some u →
  update_university this f σ
  = Return tt (set_universities (insert this (f u)) σ).
Proof. intros H. unfold update_university. by rewrite H. Qed.

(** [js_step] runs the first computation of a sequence when it reads or
    writes an object that a hypothesis, or the last write, puts in the
    store. *)
Create HintDb js discriminated.
#[local] Hint Resolve deref_Some the_person_Some the_student_Some
  update_student_Some update_group_Some update_university_Some : js.
#[local] Hint Extern 1 (_ !! _ = Some _) => apply lookup_insert_eq : js.

Ltac js_step := erewrite bind_Return by eauto with js.

(** ** [Person.age] *)

(** C7: [age] is the difference of the calendar years, less one exactly when
    today's (month, day) comes before the birthday's in the lexicographic
    order.  Born 2000-06-15, a person is 23 on 2024-06-14 and 24 on
    2024-06-15 (months count from 0), and a birth date later than today
    gives an age that is zero or negative.  [age] is a total function: it
    has a value at every pair of dates. *)
Theorem age_calendar_years (today : Date) (this : Person) :
  let birth := Person_birthDay this in
  let years := getFullYear today - getFullYear birth in
  (lex_lt (getMonth today, getDate today) (getMonth birth, getDate birth) →
   Person.age today this = years - 1)
  ∧ (¬ lex_lt (getMonth today, getDate today) (getMonth birth, getDate birth) →
     Person.age today this = years)
  ∧ (birth = mkDate 2000 5 15 →
     today = mkDate 2024 5 14 → Person.age today this = 23)
  ∧ (birth = mkDate 2000 5 15 →
     today = mkDate 2024 5 15 → Person.age today this = 24)
  ∧ (earlier today birth → Person.age today this ≤ 0).
Proof.
  unfold Person.age, earlier, lex_lt; cbn -[Z.sub Z.ltb Z.eqb].
  destruct (Person_birthDay this) as [by_ bm bd], today as [ty tm td].
  cbn -[Z.sub Z.ltb Z.eqb].
  destruct (Z.ltb_spec (tm - bm) 0), (Z.eqb_spec (tm - bm) 0), (Z.ltb_spec td bd);
    cbn -[Z.sub]; repeat split; intros; simplify_eq; lia.
Qed.

Lemma age_calendar_years_witness :
  Person.age (mkDate 2024 5 14) born_mid_june_2000 = 2024 - 2000 - 1
  ∧ Person.age (mkDate 2024 5 15) born_mid_june_2000 = 2024 - 2000
  ∧ Person.age (mkDate 2024 5 14) born_mid_june_2000 = 23
  ∧ Person.age (mkDate 2024 5 15) born_mid_june_2000 = 24
  ∧ Person.age (mkDate 1999 11 31) born_mid_june_2000 ≤ 0.
Proof.
  pose proof (age_calendar_years (mkDate 2024 5 14) born_mid_june_2000)
    as (Hbefore & _ & H23 & _ & _).
  pose proof (age_calendar_years (mkDate 2024 5 15) born_mid_june_2000)
    as (_ & Hon & _ & H24 & _).
  pose proof (age_calendar_years (mkDate 1999 11 31) born_mid_june_2000)
    as (_ & _ & _ & _ & Hfuture).
  split_and!.
  - apply Hbefore. right. cbn. lia.
  - apply Hon. intros [H|[_ H]]; cbn in H; lia.
  - by apply H23.
  - by apply H24.
  - apply Hfuture. left. cbn. lia.
Defined.

(** ** [Group.getAverageGroupScore] *)

(** C1: on a roster that is not empty [getAverageGroupScore] returns 0
    at once; on an empty roster it reduces the roster to the total 0 and
    divides it by the length 0, which is [NaN]. *)
Theorem getAverageGroupScore_inverted_guard (σ : Store) (this : ref) (g : Group) :
  the_groups σ !! this = Some g →
  (Group_students g ≠ [] →
   Group.getAverageGroupScore this σ = Return (Number.of_Z 0) σ)
  ∧ (Group_students g = [] →
     Group.getAverageGroupScore this σ
     = Return (Number.div (Number.of_Z 0) (Number.of_Z (Z.of_nat 0))) σ
     ∧ Number.div (Number.of_Z 0) (Number.of_Z (Z.of_nat 0)) = Number.NaN).
Proof.
  intros Hg. unfold Group.getAverageGroupScore.
  js_step.
  destruct (Group_students g) as [|student students]; cbn [length Nat.eqb negb].
  - split; [done | intros _; split; reflexivity].
  - split; [reflexivity | discriminate].
Qed.

Lemma getAverageGroupScore_inverted_guard_witness :
  Group.getAverageGroupScore 1 campus = Return (Number.of_Z 0) campus
  ∧ Group.getAverageGroupScore 2 campus = Return Number.NaN campus.
Proof.
  split.
  - eapply (getAverageGroupScore_inverted_guard campus 1);
      [reflexivity | discriminate].
  - eapply (getAverageGroupScore_inverted_guard campus 2);
      reflexivity.
Defined.

(** ** [Student.enrollCourse] *)

Lemma enrollCourse_Return σ this p s course c :
  the_people σ !! this = Some (IsStudent p s) →
  Student_status s = AcademicStatus.active →
  the_courses σ !! course = Some c →
  Student.enrollCourse this course σ
  = Return tt
      (set_people (insert this (IsStudent p (enrolled course (Course_credits c) s))) σ).
Proof.
  intros Hs Hstatus Hc. unfold Student.enrollCourse.
  js_step.
  apply String.eqb_eq in Hstatus as ->. cbn [negb].
  do 2 js_step.
  erewrite update_student_Some by apply lookup_insert_eq.
  unfold set_people; cbn. by rewrite insert_insert_eq.
Qed.

(** C3: a student whose status is not ["active"] cannot enrol: the call
    throws the domain error and the store it leaves is the store it found,
    so [enrolledCourses] and [totalCredits] are what they were. *)
Theorem enrollCourse_inactive_fails
    (σ : Store) (this : ref) (p : Person) (s : StudentFields) (course : ref) :
  the_people σ !! this = Some (IsStudent p s) →
  Student_status s ≠ AcademicStatus.active →
  Student.enrollCourse this course σ
  = Throw (UniversityError "Cannot enroll: Student is not in active status") σ.
Proof.
  intros Hs Hstatus. unfold Student.enrollCourse.
  js_step.
  by apply String.eqb_neq in Hstatus as ->.
Qed.

(** The student on academic leave of [campus]. *)
Lemma enrollCourse_inactive_fails_witness :
  Student.enrollCourse 3 1 campus
  = Throw (UniversityError "Cannot enroll: Student is not in active status") campus.
Proof.
  eapply (enrollCourse_inactive_fails campus 3); [reflexivity | discriminate].
Defined.

(** C4: an active student always enrols: the course is appended to
    [enrolledCourses] and [totalCredits] grows by the course's credits (the
    [+=] of two numbers), and nothing looks for the course in
    [enrolledCourses] first.  A new student
    who enrols twice in one course of 5 credits has [totalCredits] 0, then
    5, then 10, and the course twice in [enrolledCourses]. *)
Theorem enrollCourse_active_adds_credits
    (σ : Store) (this : ref) (p : Person) (s : StudentFields)
    (course : ref) (c : Course) (info : FullPersonInfo) :
  the_courses σ !! course = Some c →
  (the_people σ !! this = Some (IsStudent p s) →
   Student_status s = AcademicStatus.active →
   Student.enrollCourse this course σ
   = Return tt
       (set_people
          (insert this
             (IsStudent p
                {| Student_academicPerformance :=
                     {| totalCredits :=
                          Number.add (totalCredits (Student_academicPerformance s))
                            (Course_credits c);
                        gpa := gpa (Student_academicPerformance s) |};
                   Student_enrolledCourses := Student_enrolledCourses s ++ [course];
                   Student_status := Student_status s |}))
          σ))
  ∧ (Course_credits c = Number.of_Z 5 →
     ∃ σ', enroll_twice info course σ
           = Return (Number.of_Z 0, Number.of_Z 5, Number.of_Z 10, [course; course]) σ').
Proof.
  intros Hc. split.
  - intros Hs Hstatus. by apply enrollCourse_Return.
  - intros Hcredits. unfold enroll_twice, Student.new, Person.constructor.
    unfold bind at 1 2. unfold alloc_people.
    set (r := fresh _). set (p0 := mkPerson _ _ _ _ _ _ _).
    set (s0 := mkStudentFields _ _ _). set (σ0 := set_people _ _).
    assert (H0 : the_people σ0 !! r = Some (IsStudent p0 s0))
      by apply lookup_insert_eq.
    js_step.
    erewrite bind_Return by (by apply enrollCourse_Return).
    js_step.
    erewrite bind_Return
      by (eapply enrollCourse_Return; [apply lookup_insert_eq | done | done]).
    js_step.
    rewrite Hcredits. eexists. reflexivity.
Qed.

(** The active student of [campus] enrols in its course of 5 credits, and
    a new student enrols in it twice. *)
Lemma enrollCourse_active_adds_credits_witness :
  (∃ σ', Student.enrollCourse 2 1 campus = Return tt σ'
         ∧ (Student_academicPerformance <$> the_student_of σ' 2)
           = Some {| totalCredits := Number.of_Z 5; gpa := Number.of_Z 0 |})
  ∧ ∃ σ', enroll_twice (mkFullPersonInfo "Di" "Poe" (mkDate 2002 8 1) "female"
                          (email defaultContact) (phone defaultContact))
            1 campus
          = Return (Number.of_Z 0, Number.of_Z 5, Number.of_Z 10, [1; 1]%positive) σ'.
Proof.
  pose proof (enrollCourse_active_adds_credits campus 2
                (mkPerson "Bo" "Kim" (mkDate 2000 5 15) 2 "male" defaultContact
                   Roles.student)
                (mkStudentFields
                   (mkAcademicPerformance (Number.of_Z 0) (Number.of_Z 0)) []
                   AcademicStatus.active)
                1 (mkCourse "Algebra" (Number.of_Z 5) "Mathematics")
                (mkFullPersonInfo "Di" "Poe" (mkDate 2002 8 1) "female"
                   (email defaultContact) (phone defaultContact))
                eq_refl) as [Honce Htwice].
  split.
  - eexists. split; [exact (Honce eq_refl eq_refl) | reflexivity].
  - exact (Htwice eq_refl).
Defined.

(** ** [Group.addStudent] and [Group.removeStudentById] *)

Lemma includes_elem_of (x : ref) (l : list ref) :
  Array.includes x l = true ↔ x ∈ l.
Proof.
  unfold Array.includes. rewrite existsb_exists. split.
  - intros (y & Hy%list_elem_of_In & ->%Pos.eqb_eq). exact Hy.
  - intros Hx. exists x. split; [by apply list_elem_of_In | apply Pos.eqb_refl].
Qed.

Lemma addStudent_Throw σ this g student :
  the_groups σ !! this = Some g →
  student ∈ Group_students g →
  Group.addStudent this student σ
  = Throw (UniversityError "Student is already in the group") σ.
Proof.
  intros Hg Hin. unfold Group.addStudent.
  js_step.
  by apply includes_elem_of in Hin as ->.
Qed.

Lemma addStudent_Return σ this g student :
  the_groups σ !! this = Some g →
  student ∉ Group_students g →
  Group.addStudent this student σ
  = Return tt
      (set_groups
         (insert this (Group.set_students (Group_students g ++ [student]) g)) σ).
Proof.
  intros Hg Hin. unfold Group.addStudent.
  js_step.
  destruct (Array.includes student (Group_students g)) eqn:E.
  - by apply includes_elem_of in E.
  - by rewrite (update_group_Some _ _ _ _ Hg).
Qed.

(** C5: [addStudent] throws the domain error, and changes nothing, when the
    very student object is already in the roster; otherwise it appends the
    student to the roster.  So a student added twice is added by the first
    call and refused by the second, which finds and leaves the roster with
    that one more student: a roster of length 1 when the group was empty. *)
Theorem addStudent_once
    (σ : Store) (this : ref) (g : Group) (student : ref) :
  the_groups σ !! this = Some g →
  (student ∈ Group_students g →
   Group.addStudent this student σ
   = Throw (UniversityError "Student is already in the group") σ)
  ∧ (student ∉ Group_students g →
     ∃ σ1,
       Group.addStudent this student σ = Return tt σ1
       ∧ σ1 = set_groups
                (insert this
                   {| Group_name := Group_name g; Group_course := Group_course g;
                      Group_teacher := Group_teacher g;
                      Group_students := Group_students g ++ [student] |})
                σ
       ∧ Group.addStudent this student σ1
         = Throw (UniversityError "Student is already in the group") σ1
       ∧ roster σ1 this = Some (Group_students g ++ [student])
       ∧ (Group_students g = [] →
          length <$> roster σ1 this = Some 1%nat)).
Proof.
  intros Hg. split.
  - by apply addStudent_Throw.
  - intros Hin. eexists. split; [by apply addStudent_Return|].
    split; [done|].
    assert (Hroster :
      roster (set_groups
                (insert this (Group.set_students (Group_students g ++ [student]) g)) σ)
        this = Some (Group_students g ++ [student])).
    { unfold roster; cbn. by rewrite lookup_insert_eq. }
    split; [|split; [exact Hroster|]].
    + eapply addStudent_Throw; [apply lookup_insert_eq|].
      cbn. set_solver.
    + intros Hnil. rewrite Hroster, Hnil. done.
Qed.

(** The student on leave joins the empty group of [campus]. *)
Lemma addStudent_once_witness :
  ∃ σ1, Group.addStudent 2 3 campus = Return tt σ1
        ∧ Group.addStudent 2 3 σ1
          = Throw (UniversityError "Student is already in the group") σ1
        ∧ roster σ1 2 = Some [3%positive].
Proof.
  destruct (addStudent_once campus 2 (mkGroup "B-1" 2 1 []) 3 eq_refl)
    as [_ Hadd].
  destruct Hadd as (σ1 & H1 & _ & H2 & H3 & _); [by inversion 1|].
  exists σ1. auto.
Defined.

(** ** Array methods whose callback only reads the store *)

Section ArrayReads.
Context {A : Type} (callback : A → M bool) (q : A → bool) (σ : Store).

Lemma filter_reads (l : list A) :
  (∀ x, x ∈ l → callback x σ = Return (q x) σ) →
  Array.filter callback l σ = Return (filter (λ x, q x = true) l) σ.
Proof.
  induction l as [|x l IH]; intros Hq; [done|]. cbn [Array.filter].
  rewrite (bind_Return _ _ _ _ _ (Hq x ltac:(left))).
  rewrite (bind_Return _ _ _ _ _ (IH ltac:(intros; apply Hq; by right))).
  unfold ret. rewrite filter_cons. destruct (q x); by case_decide.
Qed.

Lemma find_reads (l : list A) :
  (∀ x, x ∈ l → callback x σ = Return (q x) σ) →
  Array.find callback l σ
  = Return (snd <$> list_find (λ x, q x = true) l) σ.
Proof.
  induction l as [|x l IH]; intros Hq; [done|]. cbn [Array.find list_find].
  rewrite (bind_Return _ _ _ _ _ (Hq x ltac:(left))).
  destruct (q x); case_decide; try done.
  rewrite IH by (intros; apply Hq; by right).
  by destruct (list_find _ l) as [[]|].
Qed.

Lemma findIndex_from_reads (i : Z) (l : list A) :
  (∀ x, x ∈ l → callback x σ = Return (q x) σ) →
  Array.findIndex_from i callback l σ
  = Return (from_option (λ found, i + Z.of_nat found.1) (-1)
              (list_find (λ x, q x = true) l)) σ.
Proof.
  revert i. induction l as [|x l IH]; intros i Hq; [done|].
  cbn [Array.findIndex_from list_find].
  rewrite (bind_Return _ _ _ _ _ (Hq x ltac:(left))).
  destruct (q x); case_decide; try done.
  { unfold ret; cbn. f_equal. lia. }
  rewrite IH by (intros; apply Hq; by right).
  destruct (list_find _ l) as [[n y]|]; cbn; [f_equal; lia | done].
Qed.
End ArrayReads.

Lemma splice_one {A} (i : nat) (l : list A) :
  (i < length l)%nat → Array.splice (Z.of_nat i) 1 l = delete i l.
Proof.
  intros Hi. unfold Array.splice.
  destruct (Z.ltb_spec (Z.of_nat i) 0); [lia|].
  rewrite Z.min_l, Nat2Z.id by lia.
  by rewrite delete_take_drop, Nat.add_1_r.
Qed.

(** ** [University] *)

(** C9: [addCourse], [addGroup] and [addPerson] each append their argument
    to one collection of the university, [courses], [groups] and [people]
    in turn, and leave the two other collections and the name as they
    were. *)
Theorem university_add_frame (σ : Store) (this : ref) (u : University) (x : ref) :
  the_universities σ !! this = Some u →
  University.addCourse this x σ
  = Return tt
      (set_universities
         (insert this
            {| University_name := University_name u;
               University_courses := University_courses u ++ [x];
               University_groups := University_groups u;
               University_people := University_people u |}) σ)
  ∧ University.addGroup this x σ
    = Return tt
        (set_universities
           (insert this
              {| University_name := University_name u;
                 University_courses := University_courses u;
                 University_groups := University_groups u ++ [x];
                 University_people := University_people u |}) σ)
  ∧ University.addPerson this x σ
    = Return tt
        (set_universities
           (insert this
              {| University_name := University_name u;
                 University_courses := University_courses u;
                 University_groups := University_groups u;
                 University_people := University_people u ++ [x] |}) σ).
Proof.
  intros Hu.
  unfold University.addCourse, University.addGroup, University.addPerson.
  by rewrite !(update_university_Some _ _ _ _ Hu).
Qed.

Lemma university_add_frame_witness :
  ∃ σ', University.addCourse 1 3 campus = Return tt σ'
        ∧ the_universities σ' !! 1%positive
          = Some (mkUniversity "KPI" [1; 2; 3; 3]%positive [2; 1]%positive
                    [1; 2; 3]%positive).
Proof.
  eexists. split.
  - exact (proj1 (university_add_frame campus 1 _ 3 eq_refl)).
  - reflexivity.
Defined.

Lemma group_course_reads σ course (groups : list ref) :
  live (the_groups σ) groups →
  ∀ group, group ∈ groups →
    (g <- deref the_groups group ;; ret (Pos.eqb (Group_course g) course)) σ
    = Return (bool_decide (course_of σ group = Some course)) σ.
Proof.
  intros Hlive group [g Hg]%(proj1 (Forall_forall _ _) Hlive).
  js_step.
  unfold ret, course_of. rewrite Hg; cbn. f_equal.
  destruct (Pos.eqb_spec (Group_course g) course) as [->|Hne].
  - by rewrite bool_decide_eq_true_2.
  - rewrite bool_decide_eq_false_2; [done | congruence].
Qed.

(** C8: [findGroupByCourse] returns the first group, in the order the
    groups were added, whose course is the very course object given, and
    [undefined] (here [None]) when no group of the university has that
    course. *)
Theorem findGroupByCourse_first (σ : Store) (this : ref) (u : University) (course : ref) :
  the_universities σ !! this = Some u →
  live (the_groups σ) (University_groups u) →
  ∃ found,
    University.findGroupByCourse this course σ = Return found σ
    ∧ match found with
      | Some group =>
          ∃ i : nat,
            University_groups u !! i = Some group
            ∧ course_of σ group = Some course
            ∧ ∀ (j : nat) (earlier_group : ref),
                (j < i)%nat →
                University_groups u !! j = Some earlier_group →
                course_of σ earlier_group ≠ Some course
      | None =>
          ∀ group, group ∈ University_groups u → course_of σ group ≠ Some course
      end.
Proof.
  intros Hu Hlive. unfold University.findGroupByCourse.
  js_step.
  rewrite (find_reads _ _ _ _ (group_course_reads σ course _ Hlive)).
  eexists; split; [reflexivity|].
  destruct (list_find _ _) as [[i group]|] eqn:Hfind; cbn.
  - apply list_find_Some in Hfind as (Hi & Hc%bool_decide_eq_true & Hfirst).
    exists i. split_and!; [done..|].
    intros j g' Hj Hg' Hc'. eapply Hfirst; [done..|].
    by apply bool_decide_eq_true.
  - intros group Hin Hc.
    apply list_find_None in Hfind.
    eapply (proj1 (Forall_forall _ _) Hfind); [done|].
    by apply bool_decide_eq_true.
Qed.

(** In [campus] a group has the first course, and none has the third. *)
Lemma findGroupByCourse_first_witness :
  (∃ group, University.findGroupByCourse 1 1 campus = Return (Some group) campus
            ∧ course_of campus group = Some 1%positive)
  ∧ University.findGroupByCourse 1 3 campus = Return None campus.
Proof.
  assert (live (the_groups campus) [2; 1]%positive) as Hlive
    by (repeat constructor; by eexists).
  split.
  - destruct (findGroupByCourse_first campus 1
                (mkUniversity "KPI" [1; 2; 3]%positive [2; 1]%positive
                   [1; 2; 3]%positive) 1 eq_refl Hlive)
      as ([group|] & Hrun & Hfound).
    + exists group. by destruct Hfound as (_ & _ & Hc & _).
    + destruct (Hfound 1%positive); [set_solver | reflexivity].
  - destruct (findGroupByCourse_first campus 1
                (mkUniversity "KPI" [1; 2; 3]%positive [2; 1]%positive
                   [1; 2; 3]%positive) 3 eq_refl Hlive)
      as ([group|] & Hrun & Hfound); [|exact Hrun].
    destruct Hfound as (i & Hi & Hc & _).
    apply list_elem_of_lookup_2 in Hi.
    apply elem_of_cons in Hi as [->|Hi]; [discriminate|].
    apply list_elem_of_singleton in Hi as ->. discriminate.
Defined.

Lemma person_role_reads σ role (people : list ref) :
  live (the_people σ) people →
  ∀ person, person ∈ people →
    (p <- the_person person ;; ret (String.eqb (Person_role p) role)) σ
    = Return (bool_decide (role_of σ person = Some role)) σ.
Proof.
  intros Hlive person [o Ho]%(proj1 (Forall_forall _ _) Hlive).
  js_step.
  unfold ret, role_of. rewrite Ho; cbn. f_equal.
  destruct (String.eqb_spec (Person_role (as_Person o)) role) as [->|Hne].
  - by rewrite bool_decide_eq_true_2.
  - rewrite bool_decide_eq_false_2; [done | congruence].
Qed.
(** C2: for the role ["student"] or ["teacher"], [getAllPeopleByRole]
    returns the people of the university whose [role] field is that role, in
    the order they were added; for any other string it throws a plain
    [Error], not a [UniversityError], and returns no list. *)
Theorem getAllPeopleByRole_filters
    (σ : Store) (this : ref) (u : University) (role : string) :
  the_universities σ !! this = Some u →
  (role = "student" ∨ role = "teacher" →
   live (the_people σ) (University_people u) →
   University.getAllPeopleByRole this role σ
   = Return
       (filter (λ person, role_of σ person = Some role) (University_people u)) σ)
  ∧ (role ≠ "student" → role ≠ "teacher" →
     University.getAllPeopleByRole this role σ
     = Throw (Error ("Unhandled role: " ++ role)) σ).
Proof.
  intros Hu. unfold University.getAllPeopleByRole.
  js_step.
  split.
  - intros Hrole Hlive.
    assert (∀ r, filter (λ x, bool_decide (role_of σ x = Some r) = true)
                   (University_people u)
                 = filter (λ person, role_of σ person = Some r)
                     (University_people u)) as Hfilter.
    { intros r. apply list_filter_iff. intros x. apply bool_decide_eq_true. }
    destruct Hrole as [-> | ->].
    + change (String.eqb "student" Roles.student) with true. cbv iota.
      rewrite (filter_reads _ _ _ _ (person_role_reads σ _ _ Hlive)).
      by rewrite Hfilter.
    + change (String.eqb "teacher" Roles.student) with false.
      change (String.eqb "teacher" Roles.teacher) with true. cbv iota.
      rewrite (filter_reads _ _ _ _ (person_role_reads σ _ _ Hlive)).
      by rewrite Hfilter.
  - intros Hs%String.eqb_neq Ht%String.eqb_neq.
    unfold Roles.student, Roles.teacher. by rewrite Hs, Ht.
Qed.

(** The teachers of [campus], and a role the program does not know. *)
Lemma getAllPeopleByRole_filters_witness :
  University.getAllPeopleByRole 1 "teacher" campus = Return [1%positive] campus
  ∧ University.getAllPeopleByRole 1 "admin" campus
    = Throw (Error "Unhandled role: admin") campus.
Proof.
  split.
  - refine (proj1 (getAllPeopleByRole_filters campus 1 _ "teacher" eq_refl)
              (or_intror eq_refl) _).
    repeat constructor; by eexists.
  - refine (proj2 (getAllPeopleByRole_filters campus 1 _ "admin" eq_refl) _ _);
      discriminate.
Defined.

Lemma person_id_reads σ id (students : list ref) :
  live (the_people σ) students →
  ∀ student, student ∈ students →
    (p <- the_person student ;; ret (Person_id p =? id)) σ
    = Return (bool_decide (id_of σ student = Some id)) σ.
Proof.
  intros Hlive student [o Ho]%(proj1 (Forall_forall _ _) Hlive).
  js_step.
  unfold ret, id_of. rewrite Ho; cbn. f_equal.
  destruct (Z.eqb_spec (Person_id (as_Person o)) id) as [->|Hne].
  - by rewrite bool_decide_eq_true_2.
  - rewrite bool_decide_eq_false_2; [done | congruence].
Qed.

(** [removeStudentById] removes the first student of the roster with the
    identifier, and throws when the roster has none. *)
Lemma removeStudentById_first σ this g id :
  the_groups σ !! this = Some g →
  live (the_people σ) (Group_students g) →
  Group.removeStudentById this id σ
  = match list_find (λ student, bool_decide (id_of σ student = Some id) = true)
            (Group_students g) with
    | Some (i, _) =>
        Return tt
          (set_groups
             (insert this (Group.set_students (delete i (Group_students g)) g)) σ)
    | None => Throw (UniversityError "Student not found in group") σ
    end.
Proof.
  intros Hg Hlive. unfold Group.removeStudentById, Array.findIndex.
  js_step.
  rewrite (bind_Return _ _ _ _ _
             (findIndex_from_reads _ _ _ 0 _ (person_id_reads σ id _ Hlive))).
  destruct (list_find _ _) as [[i student]|] eqn:Hfind; cbn [from_option fst].
  - apply list_find_Some in Hfind as (Hi%lookup_lt_Some & _).
    destruct (Z.eqb_spec (Z.lnot (0 + Z.of_nat i)) 0) as [H0|_].
    { unfold Z.lnot in H0. lia. }
    rewrite (update_group_Some _ _ _ _ Hg).
    by rewrite Z.add_0_l, splice_one.
  - reflexivity.
Qed.

(** C10: when no student of the roster has the identifier of [s], adding
    [s] and then removing the student with the identifier of [s] succeeds
    and leaves the roster, and the whole store, as it was. *)
Theorem add_then_remove_round_trip
    (σ : Store) (this : ref) (g : Group) (s : ref) (o : People) :
  the_groups σ !! this = Some g →
  the_people σ !! s = Some o →
  live (the_people σ) (Group_students g) →
  (∀ student, student ∈ Group_students g →
     id_of σ student ≠ Some (Person_id (as_Person o))) →
  add_then_remove this s σ = Return tt σ
  ∧ roster σ this = Some (Group_students g).
Proof.
  intros Hg Hs Hlive Hids.
  assert (s ∉ Group_students g) as Hnotin.
  { intros Hin. apply (Hids s Hin). unfold id_of. by rewrite Hs. }
  split; [|unfold roster; by rewrite Hg].
  unfold add_then_remove.
  rewrite (bind_Return _ _ _ _ _ (addStudent_Return _ _ _ _ Hg Hnotin)).
  js_step.
  erewrite removeStudentById_first; [|apply lookup_insert_eq|]; cycle 1.
  { cbn. apply Forall_app. split; [done|]. repeat constructor. by eexists. }
  cbn [Group.set_students Group_students set_groups the_people].
  rewrite list_find_app_r; cycle 1.
  { apply list_find_None, Forall_forall. intros student Hin.
    rewrite bool_decide_eq_true. by apply Hids. }
  cbn [list_find]. rewrite decide_True; cycle 1.
  { apply bool_decide_eq_true. unfold id_of. cbn [set_groups the_people].
    by rewrite Hs. }
  cbn. rewrite delete_take_drop, take_app_length, drop_ge, app_nil_r
    by (rewrite length_app; cbn; lia).
  destruct σ as [cs ps gs us n], g as [name c t l]; cbn in *.
  unfold set_groups; cbn. rewrite insert_insert_eq.
  do 2 f_equal. by apply insert_id.
Qed.

(** The student on leave joins and leaves the first group of [campus]. *)
Lemma add_then_remove_round_trip_witness :
  add_then_remove 1 3 campus = Return tt campus.
Proof.
  refine (proj1 (add_then_remove_round_trip campus 1
                   (mkGroup "A-1" 1 1 [2%positive]) 3 _ eq_refl eq_refl _ _)).
  - repeat constructor; by eexists.
  - intros student ->%list_elem_of_singleton. discriminate.
Defined.

(** ** The counter in binary64 *)

Lemma digits2_pos_size (p : positive) : digits2_pos p = Pos.size p.
Proof. induction p; cbn; congruence. Qed.

Lemma digits2_pos_bound (p : positive) :
  2 ^ (Zpos (digits2_pos p) - 1) ≤ Zpos p < 2 ^ Zpos (digits2_pos p).
Proof.
  rewrite digits2_pos_size. split.
  - pose proof (Pos.size_le p) as H.
    apply Pos2Z.pos_le_pos in H. rewrite Pos2Z.inj_pow in H.
    replace (Zpos (Pos.size p)) with (Zpos (Pos.size p) - 1 + 1) in H by lia.
    rewrite Z.pow_add_r in H by lia. lia.
  - pose proof (Pos.size_gt p) as H.
    apply Pos2Z.pos_lt_pos in H. by rewrite Pos2Z.inj_pow in H.
Qed.

Lemma digits2_pos_unique (p : positive) (d : Z) :
  2 ^ (d - 1) ≤ Zpos p < 2 ^ d → 1 ≤ d → Zpos (digits2_pos p) = d.
Proof.
  intros [Hlo Hhi] Hd. pose proof (digits2_pos_bound p) as [Hlo' Hhi'].
  set (D := Zpos (digits2_pos p)) in *.
  assert (d - 1 < D) by (apply (Z.pow_lt_mono_r_iff 2); lia).
  assert (D - 1 < d) by (apply (Z.pow_lt_mono_r_iff 2); lia).
  lia.
Qed.

Lemma digits2_pos_shifted (a b : positive) (j : Z) :
  0 ≤ j → Zpos a = Zpos b * 2 ^ j →
  Zpos (digits2_pos a) = Zpos (digits2_pos b) + j.
Proof.
  intros Hj Hab. pose proof (digits2_pos_bound b) as [Hlo Hhi].
  apply digits2_pos_unique; [|lia]. rewrite Hab.
  replace (Zpos (digits2_pos b) + j - 1) with (Zpos (digits2_pos b) - 1 + j) by lia.
  rewrite !Z.pow_add_r by lia. nia.
Qed.

Lemma digits2_pos_le_prec (q : positive) :
  Zpos q < 2 ^ 53 → 1 ≤ Zpos (digits2_pos q) ≤ 53.
Proof.
  intros Hq. pose proof (digits2_pos_bound q) as [Hlo _]. split; [lia|].
  assert (Zpos (digits2_pos q) - 1 < 53); [|lia].
  apply (Z.pow_lt_mono_r_iff 2); lia.
Qed.

Lemma iter_xO_value (m p : positive) :
  Zpos (Pos.iter xO m p) = Zpos m * 2 ^ Zpos p.
Proof.
  induction p as [|p IH] using Pos.peano_ind.
  - cbn [Pos.iter]. lia.
  - rewrite Pos.iter_succ, Pos2Z.inj_succ, Z.pow_succ_r by lia.
    rewrite Pos2Z.inj_xO, IH. lia.
Qed.

Lemma iter_pos_swap {A} (f : A → A) (p : positive) (x : A) :
  SpecFloat.iter_pos f p (f x) = f (SpecFloat.iter_pos f p x).
Proof.
  revert x. induction p as [p IH|p IH|]; intros x; cbn [SpecFloat.iter_pos];
    [|by rewrite !IH|done].
  by rewrite !IH.
Qed.

Lemma iter_pos_succ {A} (f : A → A) (p : positive) (x : A) :
  SpecFloat.iter_pos f (Pos.succ p) x = SpecFloat.iter_pos f p (f x).
Proof.
  revert x. induction p as [p IH|p IH|]; intros x; simpl.
  - rewrite !IH. by rewrite !iter_pos_swap.
  - done.
  - done.
Qed.

(** Shifting right the bits that a shift to the left put in loses
    nothing. *)
Lemma shr_exact (c p : positive) :
  SpecFloat.iter_pos shr_1 p
    {| shr_m := Zpos (Pos.iter xO c p); shr_r := false; shr_s := false |}
  = {| shr_m := Zpos c; shr_r := false; shr_s := false |}.
Proof.
  induction p as [|p IH] using Pos.peano_ind.
  - done.
  - by rewrite iter_pos_succ, Pos.iter_succ.
Qed.

Lemma round_canonical (s : bool) (c : positive) (ce : Z) :
  Zpos (digits2_pos c) = 53 → -1074 ≤ ce ≤ 971 →
  binary_round_aux 53 1024 s (Zpos c) ce loc_Exact = S754_finite s c ce.
Proof.
  intros Hd He. unfold binary_round_aux, shr_fexp, fexp, emin.
  cbn [Zdigits2 shr_record_of_loc]. rewrite Hd.
  replace (Z.max (53 + ce - 53) (3 - 1024 - 53) - ce) with 0 by lia.
  cbn [shr shr_m loc_of_shr_record round_nearest_even Zdigits2 shr_record_of_loc].
  rewrite Hd.
  replace (Z.max (53 + ce - 53) (3 - 1024 - 53) - ce) with 0 by lia.
  cbn [shr shr_m].
  destruct (Z.leb_spec ce (1024 - 53)); [done | lia].
Qed.

Lemma round_shifted (s : bool) (c j : positive) (e : Z) :
  Zpos (digits2_pos c) = 53 → -1074 ≤ e + Zpos j ≤ 971 →
  binary_round_aux 53 1024 s (Zpos (Pos.iter xO c j)) e loc_Exact
  = S754_finite s c (e + Zpos j).
Proof.
  intros Hd He.
  assert (Zpos (digits2_pos (Pos.iter xO c j)) = 53 + Zpos j) as Hd'.
  { rewrite (digits2_pos_shifted _ c (Zpos j)); [lia | lia | apply iter_xO_value]. }
  unfold binary_round_aux, shr_fexp at 1, fexp, emin.
  cbn [Zdigits2 shr_record_of_loc]. rewrite Hd'.
  replace (Z.max (53 + Zpos j + e - 53) (3 - 1024 - 53) - e) with (Zpos j) by lia.
  cbn [shr]. rewrite shr_exact.
  cbn [shr_m loc_of_shr_record round_nearest_even].
  fold (emin 53 1024). fold (fexp 53 1024).
  pose proof (round_canonical s c (e + Zpos j) Hd He) as Hc.
  unfold binary_round_aux, shr_fexp at 1 in Hc.
  cbn [Zdigits2 shr_record_of_loc] in Hc. rewrite Hd in Hc.
  unfold fexp at 1, emin in Hc.
  replace (Z.max (53 + (e + Zpos j) - 53) (3 - 1024 - 53) - (e + Zpos j))
    with 0 in Hc by lia.
  cbn [shr shr_m loc_of_shr_record round_nearest_even] in Hc.
  exact Hc.
Qed.

(** Rounding is exact on a mantissa and exponent whose value a mantissa
    [c] of 53 bits holds at the exponent [ce]. *)
Lemma binary_round_exact (s : bool) (mx : positive) (ex : Z) (c : positive) (ce : Z) :
  Zpos (digits2_pos c) = 53 → -1074 ≤ ce ≤ 971 →
  (ce ≤ ex ∧ Zpos c = Zpos mx * 2 ^ (ex - ce))
  ∨ (ex ≤ ce ∧ Zpos mx = Zpos c * 2 ^ (ce - ex)) →
  binary_round 53 1024 s mx ex = S754_finite s c ce.
Proof.
  intros Hd He Hvalue. unfold binary_round.
  assert (Zpos (digits2_pos mx) + ex = 53 + ce) as Hdx.
  { destruct Hvalue as [[Hle Hv]|[Hle Hv]].
    - pose proof (digits2_pos_shifted c mx (ex - ce) ltac:(lia) Hv). lia.
    - pose proof (digits2_pos_shifted mx c (ce - ex) ltac:(lia) Hv). lia. }
  rewrite Hdx. unfold fexp, emin.
  replace (Z.max (53 + ce - 53) (3 - 1024 - 53)) with ce by lia.
  unfold shl_align.
  destruct (ce - ex) as [|j|j] eqn:Hj.
  - assert (ce = ex) as -> by lia.
    assert (mx = c) as ->.
    { apply Pos2Z.inj. destruct Hvalue as [[_ Hv]|[_ Hv]];
        rewrite ?Z.sub_diag, ?Z.pow_0_r in Hv; lia. }
    by apply round_canonical.
  - destruct Hvalue as [[Hle Hv]|[Hle Hv]]; [lia|].
    assert (mx = Pos.iter xO c j) as ->.
    { apply Pos2Z.inj. by rewrite iter_xO_value, Hv. }
    rewrite round_shifted by (done || lia). f_equal. lia.
  - destruct Hvalue as [[Hle Hv]|[Hle Hv]]; [|lia].
    assert (Pos.iter xO mx j = c) as ->.
    { apply Pos2Z.inj. replace (ex - ce) with (Zpos j) in Hv by lia.
      by rewrite iter_xO_value, Hv. }
    by apply round_canonical.
Qed.

(** The binary64 number that holds a positive integer below 2^53. *)
Lemma of_Z_pos (q : positive) :
  Zpos q < 2 ^ 53 →
  Number.of_Z (Zpos q)
  = S754_finite false
      (Z.to_pos (Zpos q * 2 ^ (53 - Zpos (digits2_pos q))))
      (Zpos (digits2_pos q) - 53).
Proof.
  intros Hq. pose proof (digits2_pos_le_prec q Hq) as Hd.
  set (d := Zpos (digits2_pos q)) in *.
  assert (0 < Zpos q * 2 ^ (53 - d)) as Hpos by (apply Z.mul_pos_pos; lia).
  unfold Number.of_Z, binary_normalize.
  apply binary_round_exact; [|lia|left; split; [lia|]].
  - rewrite (digits2_pos_shifted _ q (53 - d)); [fold d; lia | lia |].
    by rewrite Z2Pos.id.
  - rewrite Z2Pos.id by done. do 2 f_equal. lia.
Qed.

(** An integer from 0 to 2^53 is the integer its binary64 number holds:
    keeping the counter as an integer loses nothing. *)
Lemma to_Z_of_Z (n : Z) : 0 ≤ n ≤ 2 ^ 53 → Number.to_Z (Number.of_Z n) = n.
Proof.
  intros Hn. destruct (Z.eq_dec n (2 ^ 53)) as [->|Hne]; [by vm_compute|].
  destruct n as [|q|q]; [done| |lia].
  pose proof (digits2_pos_le_prec q ltac:(lia)) as Hd.
  rewrite of_Z_pos by lia. set (d := Zpos (digits2_pos q)) in *.
  assert (0 < Zpos q * 2 ^ (53 - d)) as Hpos by (apply Z.mul_pos_pos; lia).
  unfold Number.to_Z, cond_Zopp. rewrite Z2Pos.id by done.
  replace (d - 53) with (- (53 - d)) by lia.
  change (Z.shiftl ?a (- ?b)) with (Z.shiftr a b).
  rewrite Z.shiftr_div_pow2 by lia. apply Z.div_mul. lia.
Qed.

Lemma shl_align_value (mx : positive) (ex ex' : Z) :
  ex' ≤ ex → Zpos (fst (shl_align mx ex ex')) = Zpos mx * 2 ^ (ex - ex').
Proof.
  intros Hle. unfold shl_align. destruct (ex' - ex) as [|j|j] eqn:Hj; cbn [fst].
  - replace (ex - ex') with 0 by lia. lia.
  - lia.
  - rewrite iter_xO_value. do 2 f_equal. lia.
Qed.

(** Adding 1 to a positive integer is exact as long as the sum is below
    2^53. *)
Lemma add_one_exact (q : positive) :
  Zpos q + 1 < 2 ^ 53 →
  Number.add (Number.of_Z (Zpos q)) (Number.of_Z 1) = Number.of_Z (Zpos q + 1).
Proof.
  intros Hq. pose proof (digits2_pos_le_prec q ltac:(lia)) as Hd.
  pose proof (digits2_pos_le_prec (q + 1) ltac:(lia)) as Hd'.
  change (Zpos q + 1) with (Zpos (q + 1)).
  change (Number.of_Z 1) with (S754_finite false 4503599627370496 (-52)).
  rewrite (of_Z_pos q), (of_Z_pos (q + 1)) by lia.
  set (d := Zpos (digits2_pos q)) in *.
  set (d' := Zpos (digits2_pos (q + 1))) in *.
  assert (0 < Zpos q * 2 ^ (53 - d)) as Hpos by (apply Z.mul_pos_pos; lia).
  assert (0 < Zpos (q + 1) * 2 ^ (53 - d')) as Hpos' by (apply Z.mul_pos_pos; lia).
  unfold Number.add, SFadd.
  replace (Z.min (d - 53) (-52)) with (-52) by lia.
  change (fst (shl_align 4503599627370496 (-52) (-52))) with 4503599627370496%positive.
  cbn [cond_Zopp].
  set (a := fst (shl_align _ _ _)).
  assert (Zpos a = Zpos q * 2 ^ 52) as Ha.
  { unfold a. rewrite shl_align_value, Z2Pos.id by lia.
    rewrite <- Z.mul_assoc, <- Z.pow_add_r by lia.
    by replace (53 - d + (d - 53 - -52)) with 52 by lia. }
  change (Zpos a + 4503599627370496) with (Zpos (a + 4503599627370496)).
  unfold binary_normalize.
  apply binary_round_exact; [|lia|right; split; [lia|]].
  - rewrite (digits2_pos_shifted _ (q + 1) (53 - d')); [fold d'; lia | lia |].
    by rewrite Z2Pos.id.
  - rewrite Z2Pos.id by done.
    rewrite <- Z.mul_assoc, <- Z.pow_add_r by lia.
    replace (53 - d' + (d' - 53 - -52)) with 52 by lia.
    rewrite !Pos2Z.inj_add, Ha. change (2 ^ 52) with 4503599627370496. lia.
Qed.

(** [nextId++] is exact below 2^53, and leaves a counter at 2^53 where it
    is. *)
Lemma increment_exact (n : Z) :
  0 ≤ n < Number.exact_limit → Number.increment n = n + 1.
Proof.
  unfold Number.exact_limit, Number.prec. intros Hn. unfold Number.increment.
  destruct (Z.eq_dec n (2 ^ 53 - 1)) as [->|Hne]; [by vm_compute|].
  destruct n as [|q|q]; [by vm_compute| |lia].
  rewrite add_one_exact by lia. apply to_Z_of_Z. lia.
Qed.

Lemma increment_limit :
  Number.increment Number.exact_limit = Number.exact_limit.
Proof. by vm_compute. Qed.

(** ** Identifiers *)

Lemma count_from_bound first n :
  Forall (λ i, first ≤ i) (count_from first n).
Proof.
  revert first. induction n as [|n IH]; intros first; cbn; constructor; [lia|].
  eapply Forall_impl; [apply IH|]. cbn. lia.
Qed.

Lemma count_from_sorted first n :
  StronglySorted Z.lt (count_from first n).
Proof.
  revert first. induction n as [|n IH]; intros first; cbn; constructor; [apply IH|].
  eapply Forall_impl; [apply count_from_bound|]. cbn. lia.
Qed.

Lemma count_from_NoDup first n :
  NoDup (count_from first n).
Proof.
  revert first. induction n as [|n IH]; intros first; cbn; constructor; [|apply IH].
  intros Hin. pose proof (count_from_bound (first + 1) n) as Hb.
  apply (proj1 (Forall_forall _ _) Hb) in Hin. lia.
Qed.

Lemma id_of_insert σ r o r' :
  id_of (set_people (insert r o) σ) r'
  = if decide (r = r') then Some (Person_id (as_Person o)) else id_of σ r'.
Proof.
  unfold id_of; cbn. rewrite lookup_insert. by case_decide.
Qed.

Lemma id_of_delete σ r r' i :
  id_of (set_people (delete r) σ) r' = Some i → id_of σ r' = Some i.
Proof.
  unfold id_of; cbn. rewrite lookup_delete. by case_decide.
Qed.

(** A construction stores one new object, with the counter as its
    identifier, and advances the counter by [nextId++]. *)
Lemma run_step_construction step σ :
  is_construction step = true →
  ∃ (r : ref) (o : People),
    Person_id (as_Person o) = Person_nextId σ
    ∧ run_step step σ
      = Return (Some (Person_nextId σ))
          (set_people (insert r o)
             (set_nextId (Number.increment (Person_nextId σ)) σ)).
Proof.
  intros Hstep.
  destruct step as [info role|info specializations|info|person]; [..|done];
    eexists (fresh (dom (the_people σ))), _;
    (split; [|unfold run_step, Person.new, Teacher.new, Student.new;
              unfold bind at 1 2; unfold Person.constructor, alloc_people;
              cbn [set_nextId the_people];
              erewrite bind_Return by (eapply the_person_Some, lookup_insert_eq);
              reflexivity]);
    reflexivity.
Qed.

Lemma construction_keeps_distinct σ r o nextId :
  Person_id (as_Person o) = Person_nextId σ →
  ids_assigned σ → ids_distinct σ →
  ids_distinct (set_people (insert r o) (set_nextId nextId σ)).
Proof.
  intros Ho Hbelow Hdistinct r1 r2 i. rewrite !id_of_insert.
  repeat case_decide; intros H1 H2; simplify_eq; try done.
  - apply Hbelow in H2. lia.
  - apply Hbelow in H1. lia.
  - by eapply Hdistinct.
Qed.

Lemma construction_keeps_assigned σ r o :
  Person_id (as_Person o) = Person_nextId σ →
  ids_assigned σ →
  ids_assigned (set_people (insert r o) (set_nextId (Person_nextId σ + 1) σ)).
Proof.
  intros Ho Hbelow r' i. rewrite id_of_insert. case_decide.
  - intros [= <-]. cbn. lia.
  - intros Hi%Hbelow. cbn. lia.
Qed.

Lemma discard_keeps_ids σ person :
  (ids_assigned σ → ids_assigned (set_people (delete person) σ))
  ∧ (ids_distinct σ → ids_distinct (set_people (delete person) σ)).
Proof.
  split.
  - intros Hbelow r i Hi%id_of_delete. by apply (Hbelow r i).
  - intros Hdistinct r1 r2 i H1%id_of_delete H2%id_of_delete.
    by apply (Hdistinct r1 r2 i).
Qed.

(** As long as the counter can reach no further than 2^53, the steps
    assign the integers that follow it. *)
Lemma run_assigns_consecutive steps σ :
  ids_distinct σ →
  (constructions steps ≠ 0%nat → ids_assigned σ) →
  0 ≤ Person_nextId σ ≤ Number.exact_limit →
  Person_nextId σ + Z.of_nat (constructions steps) ≤ Number.exact_limit + 1 →
  ∃ σ',
    run steps σ = Return (count_from (Person_nextId σ) (constructions steps)) σ'
    ∧ Person_nextId σ'
      = Z.min (Person_nextId σ + Z.of_nat (constructions steps)) Number.exact_limit
    ∧ ids_distinct σ'.
Proof.
  assert (0 < Number.exact_limit) as Hlimit by done.
  revert σ. induction steps as [|step steps IH];
    intros σ Hdistinct Hbelow Hcounter Hbound.
  { exists σ. unfold constructions in *; cbn in *. split_and!; [done | lia | done]. }
  unfold constructions in *. cbn [run List.filter] in *.
  destruct (is_construction step) eqn:Hstep; cbn [length] in *.
  - destruct (run_step_construction step σ Hstep) as (r & o & Ho & Hnew).
    specialize (Hbelow ltac:(done)).
    set (n := Person_nextId σ) in *.
    set (k := length (List.filter is_construction steps)) in *.
    destruct (IH (set_people (insert r o) (set_nextId (Number.increment n) σ)))
      as (σ' & Hrun & Hnext & Hdistinct').
    + by apply construction_keeps_distinct.
    + intros Hk. rewrite increment_exact by lia.
      by apply construction_keeps_assigned.
    + cbn. destruct (decide (n = Number.exact_limit)) as [->|];
        [rewrite increment_limit | rewrite increment_exact]; lia.
    + cbn. destruct (decide (n = Number.exact_limit)) as [->|];
        [rewrite increment_limit | rewrite increment_exact]; lia.
    + exists σ'. rewrite (bind_Return _ _ _ _ _ Hnew), (bind_Return _ _ _ _ _ Hrun).
      cbn in Hnext |- *. split_and!; [|  |done].
      * unfold ret. do 2 f_equal.
        destruct k; [done|]. by rewrite increment_exact by lia.
      * rewrite Hnext. destruct (decide (n = Number.exact_limit)) as [Hn|];
          [rewrite Hn, increment_limit | rewrite increment_exact]; lia.
  - destruct step; try done.
    destruct (discard_keeps_ids σ person) as [Hb' Hd'].
    destruct (IH (set_people (delete person) σ))
      as (σ' & Hrun & Hnext & Hdistinct'); [by apply Hd' | by auto | done..|].
    exists σ'.
    assert (run_step (Discard person) σ
            = Return None (set_people (delete person) σ)) as Hdiscard by done.
    rewrite (bind_Return _ _ _ _ _ Hdiscard), (bind_Return _ _ _ _ _ Hrun).
    cbn in *. split_and!; [done | lia | done].
Qed.

(** C6, as the code has it: whatever people a program builds, of whatever
    class and role, and whatever people it discards in between, as long as
    it builds no more than 2^53 of them, the identifiers it assigns are 1,
    2, 3, ... in the order of construction: they increase strictly, none is
    assigned twice, and no two live people share one.  The counter ends one
    past the number of constructions, or at 2^53, where it stays. *)
Theorem identifiers_increase (steps : list Step) :
  Z.of_nat (constructions steps) ≤ Number.exact_limit →
  ∃ (ids : list Z) (σ' : Store),
    run steps initial = Return ids σ'
    ∧ ids = count_from 1 (constructions steps)
    ∧ StronglySorted Z.lt ids
    ∧ NoDup ids
    ∧ ids_distinct σ'
    ∧ Person_nextId σ'
      = Z.min (1 + Z.of_nat (constructions steps)) Number.exact_limit.
Proof.
  intros Hbound.
  destruct (run_assigns_consecutive steps initial)
    as (σ' & Hrun & Hnext & Hdistinct).
  - intros r1 r2 i. unfold id_of; cbn. by rewrite lookup_empty.
  - intros _ r i. unfold id_of; cbn. by rewrite lookup_empty.
  - done.
  - cbn [initial Person_nextId]. lia.
  - exists (count_from 1 (constructions steps)), σ'.
    split_and!; [done | done | apply count_from_sorted | apply count_from_NoDup
                | done | done].
Qed.

(** Four constructions and a discard. *)
Lemma identifiers_increase_witness :
  ∃ (ids : list Z) (σ' : Store),
    run [NewStudent di_poe;
         NewTeacher di_poe ["Mathematics"];
         Discard 1;
         NewPerson di_poe "admin";
         NewStudent di_poe] initial
    = Return ids σ'
    ∧ ids = [1; 2; 3; 4]
    ∧ StronglySorted Z.lt ids
    ∧ NoDup ids
    ∧ ids_distinct σ'
    ∧ Person_nextId σ' = 5.
Proof.
  refine (identifiers_increase
            [NewStudent _; NewTeacher _ _; Discard 1; NewPerson _ _; NewStudent _] _).
  by vm_compute.
Defined.

Lemma ids_from_count first n :
  0 ≤ first → first + Z.of_nat n ≤ Number.exact_limit + 1 →
  ids_from first n = count_from first n.
Proof.
  revert first. induction n as [|n IH]; intros first Hfirst Hbound; [done|].
  cbn [ids_from count_from]. f_equal. destruct n as [|n]; [done|].
  rewrite increment_exact by lia. apply IH; lia.
Qed.

(** Once the counter has been at 2^53 for two constructions, an identifier
    is assigned twice. *)
Lemma ids_from_repeat first n :
  0 ≤ first ≤ Number.exact_limit →
  Number.exact_limit + 2 ≤ first + Z.of_nat n →
  ¬ NoDup (ids_from first n).
Proof.
  revert first. induction n as [|n IH]; intros first Hfirst Hbound; [lia|].
  cbn [ids_from]. destruct (decide (first = Number.exact_limit)) as [->|Hne].
  - rewrite increment_limit. destruct n as [|n]; [lia|]. cbn [ids_from].
    intros [Hnotin _]%NoDup_cons. apply Hnotin. by left.
  - rewrite increment_exact by lia.
    intros [_ Hrest]%NoDup_cons. revert Hrest. apply IH; lia.
Qed.

Lemma run_assigns_ids_from steps σ :
  ∃ σ', run steps σ = Return (ids_from (Person_nextId σ) (constructions steps)) σ'.
Proof.
  revert σ. induction steps as [|step steps IH]; intros σ; [by exists σ|].
  unfold constructions in *. cbn [run List.filter].
  destruct (is_construction step) eqn:Hstep; cbn [length ids_from].
  - destruct (run_step_construction step σ Hstep) as (r & o & Ho & Hnew).
    destruct (IH (set_people (insert r o)
                    (set_nextId (Number.increment (Person_nextId σ)) σ)))
      as (σ' & Hrun).
    exists σ'. by rewrite (bind_Return _ _ _ _ _ Hnew), (bind_Return _ _ _ _ _ Hrun).
  - destruct step; try done.
    destruct (IH (set_people (delete person) σ)) as (σ' & Hrun).
    exists σ'.
    assert (run_step (Discard person) σ
            = Return None (set_people (delete person) σ)) as Hdiscard by done.
    by rewrite (bind_Return _ _ _ _ _ Hdiscard), (bind_Return _ _ _ _ _ Hrun).
Qed.

Lemma constructions_replicate (n : nat) (step : Step) :
  is_construction step = true → constructions (replicate n step) = n.
Proof.
  intros Hstep. unfold constructions.
  induction n as [|n IH]; [done|].
  cbn [replicate List.filter]. rewrite Hstep. cbn [length]. by rewrite IH.
Qed.

Lemma sorted_NoDup (l : list Z) : StronglySorted Z.lt l → NoDup l.
Proof.
  induction 1 as [|x l Hsorted IH Hall]; constructor; [|done].
  intros Hin. apply (proj1 (Forall_forall _ _) Hall) in Hin. lia.
Qed.

Lemma many_constructions_repeat (n : nat) (step : Step) :
  is_construction step = true →
  Z.of_nat n = Number.exact_limit + 1 →
  ∃ (ids : list Z) (σ' : Store),
    run (replicate n step) initial = Return ids σ'
    ∧ ¬ NoDup ids
    ∧ ¬ StronglySorted Z.lt ids.
Proof.
  intros Hstep Hn.
  destruct (run_assigns_ids_from (replicate n step) initial) as (σ' & Hrun).
  rewrite (constructions_replicate n step Hstep) in Hrun.
  assert (0 < Number.exact_limit) as Hlimit by done.
  assert (¬ NoDup (ids_from (Person_nextId initial) n)) as Hrepeat.
  { apply ids_from_repeat; cbn [initial Person_nextId]; lia. }
  exists (ids_from (Person_nextId initial) n), σ'.
  split_and!; [done | done |]. by intros ?%sorted_NoDup.
Qed.

(** The claim fails after 2^53 constructions: of 2^53 + 1 students built
    one after the other, the last two get the identifier 2^53, because
    [nextId++] leaves a counter at 2^53 where it is. *)
Lemma identifiers_repeat_after_limit :
  ∃ (ids : list Z) (σ' : Store),
    run (replicate (Z.to_nat (Number.exact_limit + 1))
           (NewStudent di_poe)) initial
    = Return ids σ'
    ∧ ¬ NoDup ids
    ∧ ¬ StronglySorted Z.lt ids.
Proof.
  apply many_constructions_repeat; [done|].
  apply Z2Nat.id. done.
Qed.

(** The same steps, for any person. *)
Example identifiers_of_five_steps (info : FullPersonInfo) :
  ∃ σ',
    run [NewStudent info; NewTeacher info []; Discard 1;
         NewPerson info "admin"; NewStudent info] initial
    = Return [1; 2; 3; 4] σ'.
Proof. eexists. vm_compute. reflexivity. Qed.

(** * Further properties *)

(** ** The roster of a group *)

Lemma list_find_by_id σ id (l : list ref) :
  list_find (λ student, bool_decide (id_of σ student = Some id) = true) l
  = list_find (λ student, id_of σ student = Some id) l.
Proof. apply list_find_ext. intros student. apply bool_decide_eq_true. Qed.

Lemma getStudentById_number σ this g id :
  the_groups σ !! this = Some g →
  live (the_people σ) (Group_students g) →
  Group.getStudentById this (inl id) σ
  = Return
      (inl (snd <$> list_find (λ student, id_of σ student = Some id)
                      (Group_students g))) σ.
Proof.
  intros Hg Hlive. unfold Group.getStudentById.
  js_step.
  rewrite (bind_Return _ _ _ _ _
             (find_reads _ _ _ _ (person_id_reads σ id _ Hlive))).
  unfold ret. by rewrite list_find_by_id.
Qed.

(** X1: [removeStudentById] with an identifier no student of the roster
    has throws the domain error and leaves the store, the roster with it,
    as it was: the last student is not removed by the [-1] that
    [findIndex] returns. *)
Theorem removeStudentById_unknown_id (σ : Store) (this : ref) (g : Group) (id : Z) :
  the_groups σ !! this = Some g →
  live (the_people σ) (Group_students g) →
  (∀ student, student ∈ Group_students g → id_of σ student ≠ Some id) →
  Group.removeStudentById this id σ
  = Throw (UniversityError "Student not found in group") σ.
Proof.
  intros Hg Hlive Hids. rewrite (removeStudentById_first _ _ _ _ Hg Hlive).
  rewrite list_find_by_id.
  replace (list_find _ _) with (@None (nat * ref)); [done|].
  symmetry. apply list_find_None, Forall_forall. exact Hids.
Qed.

(** The student on leave is not in the first group of [campus]. *)
Lemma removeStudentById_unknown_id_witness :
  Group.removeStudentById 1 3 campus
  = Throw (UniversityError "Student not found in group") campus.
Proof.
  refine (removeStudentById_unknown_id campus 1
            (mkGroup "A-1" 1 1 [2%positive]) 3 eq_refl _ _).
  - repeat constructor; by eexists.
  - intros student ->%list_elem_of_singleton. discriminate.
Defined.

Lemma list_find_middle {A} (P : A → Prop) `{!∀ x, Decision (P x)}
    (before : list A) (x : A) (after : list A) :
  (∀ y, y ∈ before → ¬ P y) → P x →
  list_find P (before ++ x :: after) = Some (length before, x).
Proof.
  intros Hbefore Hx. apply list_find_Some. split_and!.
  - by rewrite list_lookup_middle.
  - done.
  - intros j y Hj Hlt. apply Hbefore.
    rewrite lookup_app_l in Hj by done. by eapply list_elem_of_lookup_2.
Qed.

(** X2: [removeStudentById] removes one roster entry, the first whose
    student has the identifier: the students before and after it stay, in
    their order, also those after it that have the same identifier. *)
Theorem removeStudentById_removes_first
    (σ : Store) (this : ref) (g : Group) (id : Z)
    (before : list ref) (student : ref) (after : list ref) :
  the_groups σ !! this = Some g →
  Group_students g = before ++ student :: after →
  live (the_people σ) (Group_students g) →
  (∀ r, r ∈ before → id_of σ r ≠ Some id) →
  id_of σ student = Some id →
  Group.removeStudentById this id σ
  = Return tt
      (set_groups
         (insert this
            {| Group_name := Group_name g; Group_course := Group_course g;
               Group_teacher := Group_teacher g;
               Group_students := before ++ after |}) σ).
Proof.
  intros Hg Hroster Hlive Hbefore Hstudent.
  rewrite (removeStudentById_first _ _ _ _ Hg Hlive), list_find_by_id.
  rewrite Hroster, list_find_middle by done.
  by rewrite delete_middle.
Qed.

(** In the second group of [campus_twins] the students 3 and 4 have the
    identifier 3; the student 3, who comes first, is removed, and the
    students 2 and 4 stay in their order. *)
Lemma removeStudentById_removes_first_witness :
  roster campus_twins 2 = Some [2; 3; 4]%positive
  ∧ id_of campus_twins 3 = Some 3
  ∧ id_of campus_twins 4 = Some 3
  ∧ Group.removeStudentById 2 3 campus_twins
    = Return tt
        (set_groups (insert 2%positive (mkGroup "B-1" 2 1 [2; 4]%positive))
           campus_twins).
Proof.
  split_and!; [reflexivity..|].
  refine (removeStudentById_removes_first campus_twins 2
            (mkGroup "B-1" 2 1 [2; 3; 4]%positive) 3
            [2%positive] 3 [4%positive] eq_refl eq_refl _ _ eq_refl).
  - repeat constructor; by eexists.
  - intros r ->%list_elem_of_singleton. discriminate.
Defined.

(** X3: [removeStudentById] throws for exactly the identifiers for which
    [getStudentById] returns [undefined]. *)
Theorem removeStudentById_throws_iff_undefined
    (σ : Store) (this : ref) (g : Group) (id : Z) :
  the_groups σ !! this = Some g →
  live (the_people σ) (Group_students g) →
  Group.removeStudentById this id σ
  = Throw (UniversityError "Student not found in group") σ
  ↔ Group.getStudentById this (inl id) σ = Return (inl None) σ.
Proof.
  intros Hg Hlive.
  rewrite (removeStudentById_first _ _ _ _ Hg Hlive), list_find_by_id.
  rewrite (getStudentById_number _ _ _ _ Hg Hlive).
  destruct (list_find _ _) as [[i student]|]; cbn; split; done.
Qed.

Lemma removeStudentById_throws_iff_undefined_witness :
  Group.removeStudentById 1 3 campus
  = Throw (UniversityError "Student not found in group") campus.
Proof.
  refine (proj2 (removeStudentById_throws_iff_undefined campus 1
                   (mkGroup "A-1" 1 1 [2%positive]) 3 eq_refl _) eq_refl).
  repeat constructor; by eexists.
Defined.

Lemma addStudent_outcome σ this g student :
  the_groups σ !! this = Some g →
  try_catch (Group.addStudent this student) σ
  = Return tt
      (if decide (student ∈ Group_students g) then σ
       else set_groups
              (insert this
                 (Group.set_students (Group_students g ++ [student]) g)) σ).
Proof.
  intros Hg. unfold try_catch. case_decide.
  - by rewrite (addStudent_Throw _ _ _ _ Hg).
  - by rewrite (addStudent_Return _ _ _ _ Hg).
Qed.

Lemma removeStudentById_outcome σ this g id :
  the_groups σ !! this = Some g →
  live (the_people σ) (Group_students g) →
  ∃ l, l `sublist_of` Group_students g
       ∧ try_catch (Group.removeStudentById this id) σ
         = Return tt (set_groups (insert this (Group.set_students l g)) σ).
Proof.
  intros Hg Hlive. unfold try_catch.
  rewrite (removeStudentById_first _ _ _ _ Hg Hlive).
  destruct (list_find _ _) as [[i student]|].
  - eexists. split; [apply sublist_delete | done].
  - exists (Group_students g). split; [done|].
    do 2 f_equal. destruct σ, g; unfold set_groups; cbn in *.
    f_equal. symmetry. by apply insert_id.
Qed.

(** X4: the roster of a group never holds a student twice.  From a roster
    without repetition, any sequence of [addStudent] and
    [removeStudentById] calls, whose exceptions the caller catches, runs to
    its end and leaves a roster without repetition. *)
Theorem roster_never_repeats
    (calls : list RosterCall) (σ : Store) (this : ref) (g : Group) :
  the_groups σ !! this = Some g →
  NoDup (Group_students g) →
  live (the_people σ) (Group_students g) →
  live (the_people σ) (added_students calls) →
  ∃ (σ' : Store) (students : list ref),
    roster_calls this calls σ = Return tt σ'
    ∧ roster σ' this = Some students
    ∧ NoDup students.
Proof.
  revert σ g. induction calls as [|call calls IH]; intros σ g Hg Hnodup Hlive Hadded.
  { exists σ, (Group_students g). unfold roster. by rewrite Hg. }
  cbn [roster_calls]. destruct call as [student|id]; cbn [roster_call].
  - rewrite (bind_Return _ _ _ _ _ (addStudent_outcome _ _ _ student Hg)).
    apply Forall_cons in Hadded as [Hstudent Hadded].
    case_decide as Hin; [by eapply IH|].
    eapply IH; [apply lookup_insert_eq|..]; cbn; [| |done].
    + apply NoDup_app. split_and!; [done| |apply NoDup_singleton].
      by intros x Hx ->%list_elem_of_singleton.
    + apply Forall_app. split; [done | by constructor].
  - destruct (removeStudentById_outcome _ _ _ id Hg Hlive) as (l & Hl & Hrun).
    rewrite (bind_Return _ _ _ _ _ Hrun).
    eapply IH; [apply lookup_insert_eq|..]; cbn; [|  |done].
    + by eapply sublist_NoDup.
    + apply Forall_forall. intros x Hx.
      eapply (proj1 (Forall_forall _ _) Hlive), elem_of_sublist; done.
Qed.

(** In the first group of [campus] its student is added again, removed,
    and added twice. *)
Lemma roster_never_repeats_witness :
  ∃ (σ' : Store) (students : list ref),
    roster_calls 1
      [AddStudent 2; RemoveStudentById 2; AddStudent 2; AddStudent 2] campus
    = Return tt σ'
    ∧ roster σ' 1 = Some students
    ∧ NoDup students.
Proof.
  refine (roster_never_repeats _ campus 1 (mkGroup "A-1" 1 1 [2%positive])
            eq_refl _ _ _).
  - apply NoDup_singleton.
  - repeat constructor; by eexists.
  - repeat constructor; by eexists.
Defined.

(** X5: a student added to a roster where nobody has its identifier is the
    student [getStudentById] then returns for that identifier. *)
Theorem getStudentById_after_addStudent
    (σ : Store) (this : ref) (g : Group) (s : ref) (o : People) :
  the_groups σ !! this = Some g →
  the_people σ !! s = Some o →
  live (the_people σ) (Group_students g) →
  (∀ student, student ∈ Group_students g →
     id_of σ student ≠ Some (Person_id (as_Person o))) →
  ∃ σ',
    (Group.addStudent this s ;;
     Group.getStudentById this (inl (Person_id (as_Person o)))) σ
    = Return (inl (Some s)) σ'.
Proof.
  intros Hg Hs Hlive Hids.
  assert (s ∉ Group_students g) as Hnotin.
  { intros Hin. apply (Hids s Hin). unfold id_of. by rewrite Hs. }
  rewrite (bind_Return _ _ _ _ _ (addStudent_Return _ _ _ _ Hg Hnotin)).
  erewrite getStudentById_number; [|apply lookup_insert_eq|]; cycle 1.
  { cbn. apply Forall_app. split; [done | repeat constructor; by eexists]. }
  cbn [Group.set_students Group_students].
  rewrite list_find_app_r; cycle 1.
  { apply list_find_None, Forall_forall. exact Hids. }
  cbn [list_find]. rewrite decide_True; [by eexists|].
  unfold id_of; cbn. by rewrite Hs.
Qed.

(** The student on leave joins the first group of [campus]. *)
Lemma getStudentById_after_addStudent_witness :
  ∃ σ',
    (Group.addStudent 1 3 ;; Group.getStudentById 1 (inl 3)) campus
    = Return (inl (Some 3%positive)) σ'.
Proof.
  refine (getStudentById_after_addStudent campus 1
            (mkGroup "A-1" 1 1 [2%positive]) 3 _ eq_refl eq_refl _ _).
  - repeat constructor; by eexists.
  - intros student ->%list_elem_of_singleton. discriminate.
Defined.

(** X6: once the only student with an identifier is removed,
    [getStudentById] returns [undefined] for that identifier. *)
Theorem getStudentById_after_removeStudentById
    (σ : Store) (this : ref) (g : Group) (id : Z)
    (before : list ref) (student : ref) (after : list ref) :
  the_groups σ !! this = Some g →
  Group_students g = before ++ student :: after →
  live (the_people σ) (Group_students g) →
  id_of σ student = Some id →
  (∀ r, r ∈ before ++ after → id_of σ r ≠ Some id) →
  ∃ σ',
    (Group.removeStudentById this id ;; Group.getStudentById this (inl id)) σ
    = Return (inl None) σ'.
Proof.
  intros Hg Hroster Hlive Hstudent Hothers.
  assert (Group.removeStudentById this id σ
          = Return tt
              (set_groups
                 (insert this (Group.set_students (before ++ after) g)) σ))
    as Hremove.
  { rewrite (removeStudentById_first _ _ _ _ Hg Hlive), list_find_by_id.
    rewrite Hroster, list_find_middle, delete_middle; [done| |done].
    intros r Hr. apply Hothers, elem_of_app. by left. }
  rewrite (bind_Return _ _ _ _ _ Hremove).
  erewrite getStudentById_number; [|apply lookup_insert_eq|]; cycle 1.
  { cbn. rewrite Hroster in Hlive.
    apply Forall_app in Hlive as [? [_ ?]%Forall_cons]. by apply Forall_app. }
  cbn [Group.set_students Group_students].
  replace (list_find _ _) with (@None (nat * ref)); [by eexists|].
  symmetry. apply list_find_None, Forall_forall. exact Hothers.
Qed.

(** The first group of [campus] loses its one student. *)
Lemma getStudentById_after_removeStudentById_witness :
  ∃ σ',
    (Group.removeStudentById 1 2 ;; Group.getStudentById 1 (inl 2)) campus
    = Return (inl None) σ'.
Proof.
  refine (getStudentById_after_removeStudentById campus 1
            (mkGroup "A-1" 1 1 [2%positive]) 2 [] 2 [] eq_refl eq_refl _ eq_refl _).
  - repeat constructor; by eexists.
  - by intros r ?%elem_of_nil.
Defined.

Lemma includes_number_elem_of (x : Z) (l : list Z) :
  Array.includes_number x l = true ↔ x ∈ l.
Proof.
  unfold Array.includes_number. rewrite existsb_exists. split.
  - intros (y & Hy%list_elem_of_In & ->%Z.eqb_eq). exact Hy.
  - intros Hx. exists x. split; [by apply list_elem_of_In | apply Z.eqb_refl].
Qed.

Lemma person_id_among_reads σ (identifier : list Z) (students : list ref) :
  live (the_people σ) students →
  ∀ student, student ∈ students →
    (p <- the_person student ;;
     ret (Array.includes_number (Person_id p) identifier)) σ
    = Return (bool_decide (id_of σ student ∈ Some <$> identifier)) σ.
Proof.
  intros Hlive student [o Ho]%(proj1 (Forall_forall _ _) Hlive).
  rewrite (bind_Return _ _ _ _ _ (the_person_Some _ _ _ Ho)).
  unfold ret, id_of. rewrite Ho; cbn. f_equal.
  destruct (Array.includes_number _ _) eqn:E; symmetry.
  - apply bool_decide_eq_true, list_elem_of_fmap_2.
    by apply includes_number_elem_of.
  - apply bool_decide_eq_false. intros Hin%(list_elem_of_fmap_inj_2 Some).
    apply includes_number_elem_of in Hin. congruence.
Qed.

Lemma getStudentById_array σ this g identifier :
  the_groups σ !! this = Some g →
  live (the_people σ) (Group_students g) →
  Group.getStudentById this (inr identifier) σ
  = Return
      (inr (filter (λ student, id_of σ student ∈ Some <$> identifier)
              (Group_students g))) σ.
Proof.
  intros Hg Hlive. unfold Group.getStudentById.
  js_step.
  rewrite (bind_Return _ _ _ _ _
             (filter_reads _ _ _ _ (person_id_among_reads σ identifier _ Hlive))).
  unfold ret. do 2 f_equal.
  apply list_filter_iff. intros student. apply bool_decide_eq_true.
Qed.

(** X7: given an array of identifiers, [getStudentById] returns the
    students of the roster whose identifier is in the array, each as often
    and in the order the roster has it; given the empty array it returns
    the empty array, and it never returns [undefined]. *)
Theorem getStudentById_array_filters
    (σ : Store) (this : ref) (g : Group) (identifier : list Z) :
  the_groups σ !! this = Some g →
  live (the_people σ) (Group_students g) →
  Group.getStudentById this (inr identifier) σ
  = Return
      (inr (filter (λ student, id_of σ student ∈ Some <$> identifier)
              (Group_students g))) σ
  ∧ Group.getStudentById this (inr []) σ = Return (inr []) σ.
Proof.
  intros Hg Hlive. rewrite !(getStudentById_array _ _ _ _ Hg Hlive).
  split; [done|]. do 2 f_equal.
  generalize (Group_students g) as students.
  induction students as [|student students IH]; [done|].
  rewrite filter_cons_False; [exact IH|]. cbn. apply not_elem_of_nil.
Qed.

(** The identifiers 3 and 2 are looked up in the second group of
    [campus_b1]: the students come in the order of the roster. *)
Lemma getStudentById_array_filters_witness :
  Group.getStudentById 2 (inr [3; 2]) campus_b1
  = Return (inr [2; 3]%positive) campus_b1.
Proof.
  refine (proj1 (getStudentById_array_filters campus_b1 2
                   (mkGroup "B-1" 2 1 [2; 3]%positive) [3; 2] eq_refl _)).
  repeat constructor; by eexists.
Defined.

Lemma head_filter_list_find {A} (P : A → Prop) `{!∀ x, Decision (P x)} (l : list A) :
  head (filter P l) = snd <$> list_find P l.
Proof.
  induction l as [|x l IH]; [done|].
  rewrite filter_cons. cbn [list_find]. case_decide; [done|].
  rewrite IH. by destruct (list_find P l) as [[]|].
Qed.

(** X8: the two forms of [getStudentById] agree: the student returned for
    one identifier is the first of the students returned for the array
    that holds just that identifier, and [undefined] when that array is
    empty. *)
Theorem getStudentById_forms_agree
    (σ : Store) (this : ref) (g : Group) (id : Z) :
  the_groups σ !! this = Some g →
  live (the_people σ) (Group_students g) →
  ∃ found : list ref,
    Group.getStudentById this (inr [id]) σ = Return (inr found) σ
    ∧ Group.getStudentById this (inl id) σ = Return (inl (head found)) σ.
Proof.
  intros Hg Hlive. eexists. split; [by apply getStudentById_array|].
  rewrite (getStudentById_number _ _ _ _ Hg Hlive), head_filter_list_find.
  do 3 f_equal. apply list_find_ext. intros student.
  rewrite list_fmap_singleton, list_elem_of_singleton. done.
Qed.

Lemma getStudentById_forms_agree_witness :
  ∃ found : list ref,
    Group.getStudentById 1 (inr [2]) campus = Return (inr found) campus
    ∧ Group.getStudentById 1 (inl 2) campus = Return (inl (head found)) campus.
Proof.
  refine (getStudentById_forms_agree campus 1
            (mkGroup "A-1" 1 1 [2%positive]) 2 eq_refl _).
  repeat constructor; by eexists.
Defined.

(** ** The courses of a teacher *)

Lemma the_teacher_Some r p t σ :
  the_people σ !! r = Some (IsTeacher p t) → the_teacher r σ = Return t σ.
Proof. intros H. unfold the_teacher. by rewrite (bind_Return _ _ _ _ _ (deref_Some _ _ _ _ H)). Qed.

Lemma update_teacher_Some this f p t σ :
  the_people σ !! this = Some (IsTeacher p t) →
  update_teacher this f σ
  = Return tt (set_people (insert this (IsTeacher p (f t))) σ).
Proof. intros H. unfold update_teacher. by rewrite H. Qed.

Lemma course_name_reads σ courseName (courses : list ref) :
  live (the_courses σ) courses →
  ∀ course, course ∈ courses →
    (c <- deref the_courses course ;;
     ret (negb (String.eqb (Course_name c) courseName))) σ
    = Return (bool_decide (name_of σ course ≠ Some courseName)) σ.
Proof.
  intros Hlive course [c Hc]%(proj1 (Forall_forall _ _) Hlive).
  rewrite (bind_Return _ _ _ _ _ (deref_Some _ _ _ _ Hc)).
  unfold ret, name_of. rewrite Hc; cbn. f_equal.
  destruct (String.eqb_spec (Course_name c) courseName) as [->|Hne]; cbn.
  - rewrite bool_decide_eq_false_2; [done | by intros []].
  - rewrite bool_decide_eq_true_2; [done | congruence].
Qed.

Lemma removeCourse_Return σ this p t courseName :
  the_people σ !! this = Some (IsTeacher p t) →
  live (the_courses σ) (Teacher_courses t) →
  Teacher.removeCourse this courseName σ
  = Return tt
      (set_people
         (insert this
            (IsTeacher p
               {| Teacher_specializations := Teacher_specializations t;
                  Teacher_courses :=
                    filter (λ course, name_of σ course ≠ Some courseName)
                      (Teacher_courses t) |})) σ).
Proof.
  intros Ht Hlive. unfold Teacher.removeCourse.
  rewrite (bind_Return _ _ _ _ _ (the_teacher_Some _ _ _ _ Ht)).
  rewrite (bind_Return _ _ _ _ _
             (filter_reads _ _ _ _ (course_name_reads σ courseName _ Hlive))).
  rewrite (update_teacher_Some _ _ _ _ _ Ht). unfold Teacher.set_courses.
  do 5 f_equal. apply list_filter_iff. intros course. apply bool_decide_eq_true.
Qed.

Lemma set_people_insert_id σ r o :
  the_people σ !! r = Some o → set_people (insert r o) σ = σ.
Proof.
  intros Ho. destruct σ; unfold set_people; cbn in *. f_equal.
  by apply insert_id.
Qed.

(** X9: [assignCourse] always returns and appends the course to the
    courses of the teacher, whether or not the teacher has it already: a
    course assigned twice is there twice. *)
Theorem assignCourse_appends
    (σ : Store) (this : ref) (p : Person) (t : TeacherFields) (course : ref) :
  the_people σ !! this = Some (IsTeacher p t) →
  Teacher.assignCourse this course σ
  = Return tt
      (set_people
         (insert this
            (IsTeacher p
               {| Teacher_specializations := Teacher_specializations t;
                  Teacher_courses := Teacher_courses t ++ [course] |})) σ)
  ∧ ∃ σ',
      (Teacher.assignCourse this course ;; Teacher.assignCourse this course ;;
       Teacher.getCourses this) σ
      = Return (Teacher_courses t ++ [course; course]) σ'.
Proof.
  intros Ht. unfold Teacher.assignCourse, Teacher.getCourses.
  rewrite (update_teacher_Some _ _ _ _ _ Ht). split; [done|].
  rewrite (bind_Return _ _ _ _ _ (update_teacher_Some _ _ _ _ _ Ht)).
  erewrite bind_Return by (eapply update_teacher_Some, lookup_insert_eq).
  erewrite bind_Return by (eapply the_teacher_Some, lookup_insert_eq).
  eexists. unfold ret, Array.push; cbn. by rewrite <- app_assoc.
Qed.

(** The teacher of [campus] is assigned the first course twice. *)
Lemma assignCourse_appends_witness :
  ∃ σ',
    (Teacher.assignCourse 1 1 ;; Teacher.assignCourse 1 1 ;;
     Teacher.getCourses 1) campus
    = Return [1; 1]%positive σ'.
Proof.
  refine (proj2 (assignCourse_appends campus 1 _
                   (mkTeacherFields ["Mathematics"] []) 1 eq_refl)).
Defined.

(** X10: [removeCourse] always returns; it removes every course of the
    teacher that has the name, keeps the others in their order, and changes
    nothing when no course has the name. *)
Theorem removeCourse_removes_all
    (σ : Store) (this : ref) (p : Person) (t : TeacherFields) (courseName : string) :
  the_people σ !! this = Some (IsTeacher p t) →
  live (the_courses σ) (Teacher_courses t) →
  Teacher.removeCourse this courseName σ
  = Return tt
      (set_people
         (insert this
            (IsTeacher p
               {| Teacher_specializations := Teacher_specializations t;
                  Teacher_courses :=
                    filter (λ course, name_of σ course ≠ Some courseName)
                      (Teacher_courses t) |})) σ)
  ∧ ((∀ course, course ∈ Teacher_courses t → name_of σ course ≠ Some courseName) →
     Teacher.removeCourse this courseName σ = Return tt σ).
Proof.
  intros Ht Hlive. rewrite (removeCourse_Return _ _ _ _ _ Ht Hlive).
  split; [done|]. intros Hnone.
  assert (filter (λ course, name_of σ course ≠ Some courseName)
            (Teacher_courses t) = Teacher_courses t) as ->.
  { revert Hnone. generalize (Teacher_courses t) as l.
    induction l as [|c l IH]; intros Hnone; [done|].
    rewrite filter_cons_True by (apply Hnone; by left).
    f_equal. apply IH. intros c' Hc'. apply Hnone. by right. }
  f_equal. apply set_people_insert_id. rewrite Ht. by destruct t.
Qed.

(** The teacher of [campus_lee] has the courses 1, 2, 1; the courses 1 are
    named Algebra, and no course is named Optics. *)
Lemma removeCourse_removes_all_witness :
  (∃ σ', (Teacher.removeCourse 1 "Algebra" ;; Teacher.getCourses 1) campus_lee
         = Return [2%positive] σ')
  ∧ Teacher.removeCourse 1 "Optics" campus_lee = Return tt campus_lee.
Proof.
  assert (live (the_courses campus_lee) [1; 2; 1]%positive) as Hlive
    by (repeat constructor; by eexists).
  split.
  - eexists.
    rewrite (bind_Return _ _ _ _ _
               (proj1 (removeCourse_removes_all campus_lee 1 _
                         (mkTeacherFields ["Mathematics"] [1; 2; 1]%positive)
                         "Algebra" eq_refl Hlive))).
    reflexivity.
  - refine (proj2 (removeCourse_removes_all campus_lee 1 _
                     (mkTeacherFields ["Mathematics"] [1; 2; 1]%positive)
                     "Optics" eq_refl Hlive) _).
    intros course Hin.
    repeat (apply elem_of_cons in Hin as [->|Hin]; [discriminate|]).
    by apply elem_of_nil in Hin.
Defined.

Lemma filter_keeps_all {A} (P : A → Prop) `{!∀ x, Decision (P x)} (l : list A) :
  (∀ x, x ∈ l → P x) → filter P l = l.
Proof.
  induction l as [|x l IH]; intros HP; [done|].
  rewrite filter_cons_True by (apply HP; by left).
  f_equal. apply IH. intros y Hy. apply HP. by right.
Qed.

(** X11: removing a name twice is removing it once. *)
Theorem removeCourse_idempotent
    (σ : Store) (this : ref) (p : Person) (t : TeacherFields) (courseName : string) :
  the_people σ !! this = Some (IsTeacher p t) →
  live (the_courses σ) (Teacher_courses t) →
  (Teacher.removeCourse this courseName ;; Teacher.removeCourse this courseName) σ
  = Teacher.removeCourse this courseName σ.
Proof.
  intros Ht Hlive. rewrite (removeCourse_Return _ _ _ _ _ Ht Hlive).
  erewrite bind_Return by (by apply removeCourse_Return).
  erewrite removeCourse_Return; [|apply lookup_insert_eq|]; cycle 1.
  { cbn. apply Forall_forall. intros c [_ Hc]%list_elem_of_filter.
    by apply (proj1 (Forall_forall _ _) Hlive). }
  cbn [Teacher_courses Teacher_specializations].
  rewrite filter_keeps_all by (by intros c [Hc _]%list_elem_of_filter).
  unfold set_people; cbn. by rewrite insert_insert_eq.
Qed.

Lemma removeCourse_idempotent_witness :
  (Teacher.removeCourse 1 "Algebra" ;; Teacher.removeCourse 1 "Algebra") campus_lee
  = Teacher.removeCourse 1 "Algebra" campus_lee.
Proof.
  refine (removeCourse_idempotent campus_lee 1 _
            (mkTeacherFields ["Mathematics"] [1; 2; 1]%positive)
            "Algebra" eq_refl _).
  repeat constructor; by eexists.
Defined.

(** X12: when no course of the teacher has the name of [course], assigning
    [course] and then removing its name leaves the courses of the teacher,
    and the whole store, as they were. *)
Theorem assignCourse_then_removeCourse
    (σ : Store) (this : ref) (p : Person) (t : TeacherFields)
    (course : ref) (c : Course) :
  the_people σ !! this = Some (IsTeacher p t) →
  the_courses σ !! course = Some c →
  live (the_courses σ) (Teacher_courses t) →
  (∀ other, other ∈ Teacher_courses t → name_of σ other ≠ Some (Course_name c)) →
  (Teacher.assignCourse this course ;;
   Teacher.removeCourse this (Course_name c)) σ
  = Return tt σ.
Proof.
  intros Ht Hc Hlive Hnames. unfold Teacher.assignCourse.
  rewrite (bind_Return _ _ _ _ _ (update_teacher_Some _ _ _ _ _ Ht)).
  erewrite removeCourse_Return; [|apply lookup_insert_eq|]; cycle 1.
  { cbn. apply Forall_app. split; [done | repeat constructor; by eexists]. }
  cbn [Teacher.set_courses Teacher_courses Teacher_specializations].
  unfold Array.push, name_of in *. cbn [set_people the_courses].
  rewrite filter_app, filter_keeps_all by done.
  rewrite filter_cons_False, filter_nil, app_nil_r; cycle 1.
  { intros Hne. apply Hne. by rewrite Hc. }
  unfold set_people at 1 2; cbn. rewrite insert_insert_eq.
  destruct σ, t; unfold set_people; cbn in *. do 2 f_equal. by apply insert_id.
Qed.

(** The teacher of [campus], who has no course yet, is assigned its first
    course and loses the courses named Algebra. *)
Lemma assignCourse_then_removeCourse_witness :
  (Teacher.assignCourse 1 1 ;; Teacher.removeCourse 1 "Algebra") campus
  = Return tt campus.
Proof.
  refine (assignCourse_then_removeCourse campus 1 _
            (mkTeacherFields ["Mathematics"] []) 1
            (mkCourse "Algebra" (Number.of_Z 5) "Mathematics")
            eq_refl eq_refl _ _).
  - constructor.
  - by intros other ?%elem_of_nil.
Defined.

(** ** The status and the score of a student *)

(** X13: the status alone decides whether a student can enrol, and any
    status can follow any other: a student set to ["active"], from whatever
    status, enrols; a student set to any other status does not, and keeps
    the new status. *)
Theorem status_gates_enrollment
    (σ : Store) (this : ref) (p : Person) (s : StudentFields)
    (course : ref) (c : Course) (newStatus : string) :
  the_people σ !! this = Some (IsStudent p s) →
  the_courses σ !! course = Some c →
  (Student.updateAcademicStatus this AcademicStatus.active ;;
   Student.enrollCourse this course) σ
  = Return tt
      (set_people
         (insert this
            (IsStudent p
               {| Student_academicPerformance :=
                    {| totalCredits :=
                         Number.add (totalCredits (Student_academicPerformance s))
                           (Course_credits c);
                       gpa := gpa (Student_academicPerformance s) |};
                  Student_enrolledCourses := Student_enrolledCourses s ++ [course];
                  Student_status := AcademicStatus.active |})) σ)
  ∧ (newStatus ≠ AcademicStatus.active →
     (Student.updateAcademicStatus this newStatus ;;
      Student.enrollCourse this course) σ
     = Throw (UniversityError "Cannot enroll: Student is not in active status")
         (set_people
            (insert this
               (IsStudent p
                  {| Student_academicPerformance := Student_academicPerformance s;
                     Student_enrolledCourses := Student_enrolledCourses s;
                     Student_status := newStatus |})) σ)).
Proof.
  intros Hs Hc. unfold Student.updateAcademicStatus. split.
  - rewrite (bind_Return _ _ _ _ _ (update_student_Some _ _ _ _ _ Hs)).
    erewrite enrollCourse_Return; [|apply lookup_insert_eq|done|exact Hc].
    unfold set_people; cbn. by rewrite insert_insert_eq.
  - intros Hstatus.
    rewrite (bind_Return _ _ _ _ _ (update_student_Some _ _ _ _ _ Hs)).
    unfold Student.enrollCourse.
    erewrite bind_Return by (eapply the_student_Some, lookup_insert_eq).
    cbn [Student.set_status Student_status].
    by apply String.eqb_neq in Hstatus as ->.
Qed.

(** The student on leave of [campus] is made active, or expelled, and
    enrols in the first course. *)
Lemma status_gates_enrollment_witness :
  (∃ σ', (Student.updateAcademicStatus 3 "active" ;; Student.enrollCourse 3 1) campus
         = Return tt σ')
  ∧ (∃ σ', (Student.updateAcademicStatus 3 "expelled" ;; Student.enrollCourse 3 1) campus
           = Throw (UniversityError "Cannot enroll: Student is not in active status") σ').
Proof.
  pose proof (status_gates_enrollment campus 3 _ _ 1 _ "expelled" eq_refl eq_refl)
    as [Hactive Hexpelled].
  split; eexists; [exact Hactive | apply Hexpelled; discriminate].
Defined.

Lemma student_call_keeps_gpa σ this p s call :
  the_people σ !! this = Some (IsStudent p s) →
  live (the_courses σ) (enrolled_courses [call]) →
  ∃ σ' s',
    try_catch (student_call this call) σ = Return tt σ'
    ∧ the_people σ' !! this = Some (IsStudent p s')
    ∧ the_courses σ' = the_courses σ
    ∧ gpa (Student_academicPerformance s') = gpa (Student_academicPerformance s).
Proof.
  intros Hs Hlive. unfold try_catch. destruct call as [course|newStatus]; cbn.
  - apply Forall_cons in Hlive as [[c Hc] _].
    destruct (decide (Student_status s = AcademicStatus.active)) as [Hactive|Hnot].
    + rewrite (enrollCourse_Return _ _ _ _ _ _ Hs Hactive Hc).
      do 2 eexists. split_and!; [done|apply lookup_insert_eq|done..].
    + unfold Student.enrollCourse. js_step.
      apply String.eqb_neq in Hnot as ->. by exists σ, s.
  - unfold Student.updateAcademicStatus.
    rewrite (update_student_Some _ _ _ _ _ Hs).
    do 2 eexists. split_and!; [done|apply lookup_insert_eq|done..].
Qed.

Lemma student_calls_keep_gpa calls σ this p s :
  the_people σ !! this = Some (IsStudent p s) →
  live (the_courses σ) (enrolled_courses calls) →
  ∃ σ' s',
    student_calls this calls σ = Return tt σ'
    ∧ the_people σ' !! this = Some (IsStudent p s')
    ∧ gpa (Student_academicPerformance s') = gpa (Student_academicPerformance s).
Proof.
  revert σ s. induction calls as [|call calls IH]; intros σ s Hs Hlive.
  { by exists σ, s. }
  destruct (student_call_keeps_gpa σ this p s call Hs)
    as (σ1 & s1 & Hrun & Hs1 & Hcourses & Hgpa).
  { destruct call; [apply Forall_cons in Hlive as [? _]; by repeat constructor
                   | constructor]. }
  destruct (IH σ1 s1 Hs1) as (σ' & s' & Hrun' & Hs' & Hgpa').
  { rewrite Hcourses. destruct call; [by apply Forall_cons in Hlive as [_ ?] | done]. }
  exists σ', s'. cbn [student_calls].
  rewrite (bind_Return _ _ _ _ _ Hrun). split_and!; [done..|congruence].
Qed.

(** X14: no method writes [gpa].  A student built by [new Student] and
    changed only by [enrollCourse] and [updateAcademicStatus] calls, whose
    exceptions the caller catches, has the average score 0. *)
Theorem average_score_stays_zero
    (σ : Store) (info : FullPersonInfo) (calls : list StudentCall) :
  live (the_courses σ) (enrolled_courses calls) →
  ∃ σ', average_score_after info calls σ = Return (Number.of_Z 0) σ'.
Proof.
  intros Hlive. unfold average_score_after, Student.new, Person.constructor.
  unfold bind at 1 2. unfold alloc_people.
  set (r := fresh _). set (p0 := mkPerson _ _ _ _ _ _ _).
  set (s0 := mkStudentFields _ _ _). set (σ0 := set_people _ _).
  destruct (student_calls_keep_gpa calls σ0 r p0 s0) as (σ' & s' & Hrun & Hs' & Hgpa);
    [apply lookup_insert_eq | done |].
  rewrite (bind_Return _ _ _ _ _ Hrun). unfold Student.getAverageScore.
  js_step. exists σ'. unfold ret. by rewrite Hgpa.
Qed.

(** A new student of [campus] enrols in two courses, is expelled, and
    tries a third. *)
Lemma average_score_stays_zero_witness :
  ∃ σ',
    average_score_after
      (mkFullPersonInfo "Di" "Poe" (mkDate 2002 8 1) "female"
         (email defaultContact) (phone defaultContact))
      [EnrollCourse 1; EnrollCourse 2; UpdateAcademicStatus "expelled"; EnrollCourse 3]
      campus
    = Return (Number.of_Z 0) σ'.
Proof.
  refine (average_score_stays_zero campus _ _ _).
  repeat constructor; by eexists.
Defined.

(** ** More on [Person.age] *)

(** X15: the age of a person never decreases as the days pass: on an
    earlier calendar day the age is at most what it is on a later one. *)
Theorem age_never_decreases (today later : Date) (this : Person) :
  earlier today later →
  Person.age today this ≤ Person.age later this.
Proof.
  unfold Person.age, earlier, lex_lt.
  destruct (Person_birthDay this) as [by_ bm bd], today as [ty tm td],
    later as [ly lm ld].
  cbn -[Z.sub Z.ltb Z.eqb].
  destruct (Z.ltb_spec (tm - bm) 0), (Z.eqb_spec (tm - bm) 0), (Z.ltb_spec td bd),
    (Z.ltb_spec (lm - bm) 0), (Z.eqb_spec (lm - bm) 0), (Z.ltb_spec ld bd);
    cbn -[Z.sub]; lia.
Qed.

Lemma age_never_decreases_witness :
  Person.age (mkDate 2024 5 14) born_mid_june_2000
  ≤ Person.age (mkDate 2024 5 15) born_mid_june_2000.
Proof.
  apply (age_never_decreases (mkDate 2024 5 14) (mkDate 2024 5 15)).
  right. split; [reflexivity|]. right. cbn. lia.
Defined.

(** X16: the age grows by one with each calendar year: [years] years
    later, on the same day of the same month, the age is [years] more; on the
    day of birth it is 0, and on its anniversaries it is the number of years
    gone by. *)
Theorem age_counts_years (today : Date) (this : Person) (years : Z) :
  Person.age (years_later years today) this = Person.age today this + years
  ∧ Person.age (Person_birthDay this) this = 0
  ∧ Person.age (years_later years (Person_birthDay this)) this = years.
Proof.
  unfold Person.age, years_later.
  destruct (Person_birthDay this) as [by_ bm bd], today as [ty tm td].
  cbn -[Z.sub Z.ltb Z.eqb].
  rewrite !Z.sub_diag, !Z.ltb_irrefl, Z.eqb_refl. cbn -[Z.sub Z.ltb Z.eqb].
  destruct (_ || _); lia.
Qed.

(** ** Asking a university after a change *)

Lemma getAllPeopleByRole_Return σ this u role :
  the_universities σ !! this = Some u →
  role = Roles.student ∨ role = Roles.teacher →
  live (the_people σ) (University_people u) →
  University.getAllPeopleByRole this role σ
  = Return (filter (λ person, role_of σ person = Some role) (University_people u)) σ.
Proof.
  intros Hu Hrole Hlive. unfold University.getAllPeopleByRole.
  js_step.
  assert (∀ r, filter (λ x, bool_decide (role_of σ x = Some r) = true)
                 (University_people u)
               = filter (λ person, role_of σ person = Some r)
                   (University_people u)) as Hfilter.
  { intros r. apply list_filter_iff. intros x. apply bool_decide_eq_true. }
  destruct Hrole as [-> | ->].
  - change (String.eqb Roles.student Roles.student) with true. cbv iota.
    rewrite (filter_reads _ _ _ _ (person_role_reads σ _ _ Hlive)).
    by rewrite Hfilter.
  - change (String.eqb Roles.teacher Roles.student) with false.
    change (String.eqb Roles.teacher Roles.teacher) with true. cbv iota.
    rewrite (filter_reads _ _ _ _ (person_role_reads σ _ _ Hlive)).
    by rewrite Hfilter.
Qed.

Lemma findGroupByCourse_Return σ this u course :
  the_universities σ !! this = Some u →
  live (the_groups σ) (University_groups u) →
  University.findGroupByCourse this course σ
  = Return
      (snd <$> list_find (λ group, course_of σ group = Some course)
                 (University_groups u)) σ.
Proof.
  intros Hu Hlive. unfold University.findGroupByCourse.
  js_step.
  rewrite (find_reads _ _ _ _ (group_course_reads σ course _ Hlive)).
  do 3 f_equal. apply list_find_ext. intros group. apply bool_decide_eq_true.
Qed.

(** X17: after [addPerson], [getAllPeopleByRole] returns what it returned
    before, followed by the new person when that person has the role. *)
Theorem getAllPeopleByRole_after_addPerson
    (σ : Store) (this : ref) (u : University) (person : ref) (o : People)
    (role : string) :
  the_universities σ !! this = Some u →
  the_people σ !! person = Some o →
  live (the_people σ) (University_people u) →
  role = Roles.student ∨ role = Roles.teacher →
  ∃ (before : list ref) (σ' : Store),
    University.getAllPeopleByRole this role σ = Return before σ
    ∧ add_person_then_ask this person role σ
      = Return
          (before ++ if decide (Person_role (as_Person o) = role) then [person] else [])
          σ'.
Proof.
  intros Hu Ho Hlive Hrole. do 2 eexists.
  split; [by apply getAllPeopleByRole_Return|].
  unfold add_person_then_ask, University.addPerson.
  rewrite (bind_Return _ _ _ _ _ (update_university_Some _ _ _ _ Hu)).
  erewrite getAllPeopleByRole_Return; [|apply lookup_insert_eq|done|]; cycle 1.
  { cbn. apply Forall_app. split; [done | repeat constructor; by eexists]. }
  cbn [University.this_people_push University_people Array.push].
  unfold Array.push. rewrite filter_app. do 2 f_equal.
  rewrite filter_cons, filter_nil. unfold role_of; cbn. rewrite Ho; cbn.
  repeat case_decide; try done; congruence.
Qed.

(** The student on leave of [campus] is added once more to its
    university, which is asked for its students and for its teachers. *)
Lemma getAllPeopleByRole_after_addPerson_witness :
  (∃ σ', add_person_then_ask 1 3 "student" campus = Return [2; 3; 3]%positive σ')
  ∧ (∃ σ', add_person_then_ask 1 3 "teacher" campus = Return [1%positive] σ').
Proof.
  assert (live (the_people campus) [1; 2; 3]%positive) as Hlive
    by (repeat constructor; by eexists).
  split.
  - destruct (getAllPeopleByRole_after_addPerson campus 1 _ 3 _ "student"
                eq_refl eq_refl Hlive (or_introl eq_refl))
      as (before & σ' & Hbefore & Hafter).
    injection Hbefore as <-. by exists σ'.
  - destruct (getAllPeopleByRole_after_addPerson campus 1 _ 3 _ "teacher"
                eq_refl eq_refl Hlive (or_intror eq_refl))
      as (before & σ' & Hbefore & Hafter).
    injection Hbefore as <-. by exists σ'.
Defined.

(** X18: after [addGroup], [findGroupByCourse] still returns the group it
    returned before; when it returned [undefined], it now returns the new
    group if that group has the course, and [undefined] if not. *)
Theorem findGroupByCourse_after_addGroup
    (σ : Store) (this : ref) (u : University) (group : ref) (g : Group)
    (course : ref) :
  the_universities σ !! this = Some u →
  the_groups σ !! group = Some g →
  live (the_groups σ) (University_groups u) →
  ∃ (before : option ref) (σ' : Store),
    University.findGroupByCourse this course σ = Return before σ
    ∧ add_group_then_ask this group course σ
      = Return
          (match before with
           | Some first => Some first
           | None => if decide (Group_course g = course) then Some group else None
           end)
          σ'.
Proof.
  intros Hu Hg Hlive. do 2 eexists.
  split; [by apply findGroupByCourse_Return|].
  unfold add_group_then_ask, University.addGroup.
  rewrite (bind_Return _ _ _ _ _ (update_university_Some _ _ _ _ Hu)).
  erewrite findGroupByCourse_Return; [|apply lookup_insert_eq|]; cycle 1.
  { cbn. apply Forall_app. split; [done | repeat constructor; by eexists]. }
  cbn [University.this_groups_push University_groups].
  unfold Array.push. f_equal.
  change (course_of (set_universities _ σ)) with (course_of σ).
  destruct (list_find _ (University_groups u)) as [[i first]|] eqn:Hfind.
  - by erewrite list_find_app_l.
  - rewrite list_find_app_r by done. cbn [list_find].
    assert (course_of σ group = Some (Group_course g)) as Hcourse
      by (unfold course_of; by rewrite Hg).
    repeat case_decide; try done; congruence.
Qed.

(** The first group of [campus] is added once more to its university,
    which is asked for the group of the first course and of the third. *)
Lemma findGroupByCourse_after_addGroup_witness :
  (∃ σ', add_group_then_ask 1 1 1 campus = Return (Some 1%positive) σ')
  ∧ (∃ σ', add_group_then_ask 1 1 3 campus = Return None σ').
Proof.
  assert (live (the_groups campus) [2; 1]%positive) as Hlive
    by (repeat constructor; by eexists).
  split.
  - destruct (findGroupByCourse_after_addGroup campus 1 _ 1 _ 1
                eq_refl eq_refl Hlive) as (before & σ' & Hbefore & Hafter).
    injection Hbefore as <-. by exists σ'.
  - destruct (findGroupByCourse_after_addGroup campus 1 _ 1 _ 3
                eq_refl eq_refl Hlive) as (before & σ' & Hbefore & Hafter).
    injection Hbefore as <-. by exists σ'.
Defined.

Lemma filter_iff_elem_of {A} (P Q : A → Prop)
    `{!∀ x, Decision (P x), !∀ x, Decision (Q x)} (l : list A) :
  (∀ x, x ∈ l → P x ↔ Q x) → filter P l = filter Q l.
Proof.
  induction l as [|x l IH]; intros HPQ; [done|].
  rewrite !filter_cons, IH by (intros y Hy; apply HPQ; by right).
  pose proof (HPQ x ltac:(left)). repeat case_decide; try done; tauto.
Qed.

Lemma fresh_person_is_new σ :
  the_people σ !! fresh (dom (the_people σ)) = None.
Proof. apply not_elem_of_dom, is_fresh. Qed.

(** The two questions after a person with the fields [o] is stored at the
    unused address [r] and added to the university. *)
Lemma ask_after_registering σ this u r o nextId :
  the_universities σ !! this = Some u →
  live (the_people σ) (University_people u) →
  the_people σ !! r = None →
  ∃ σ',
    (University.addPerson this r ;;
     students <- University.getAllPeopleByRole this Roles.student ;;
     teachers <- University.getAllPeopleByRole this Roles.teacher ;;
     ret (r, students, teachers))
      (set_people (insert r o) (set_nextId nextId σ))
    = Return
        (r,
         filter (λ person, role_of σ person = Some Roles.student) (University_people u)
         ++ (if decide (Person_role (as_Person o) = Roles.student) then [r] else []),
         filter (λ person, role_of σ person = Some Roles.teacher) (University_people u)
         ++ (if decide (Person_role (as_Person o) = Roles.teacher) then [r] else []))
        σ'.
Proof.
  intros Hu Hlive Hnew. set (σ0 := set_people _ _).
  assert (the_universities σ0 !! this = Some u) as Hu0 by done.
  unfold University.addPerson.
  rewrite (bind_Return _ _ _ _ _ (update_university_Some _ _ _ _ Hu0)).
  set (σ1 := set_universities _ _).
  assert (live (the_people σ1) (University_people u ++ [r])) as Hlive1.
  { apply Forall_app. split.
    - eapply Forall_impl; [exact Hlive|]. intros x Hx. cbn.
      apply lookup_insert_is_Some. destruct (decide (r = x)); auto.
    - repeat constructor. cbn. rewrite lookup_insert_eq. by eexists. }
  assert (∀ role,
    filter (λ person, role_of σ1 person = Some role) (University_people u ++ [r])
    = filter (λ person, role_of σ person = Some role) (University_people u)
      ++ (if decide (Person_role (as_Person o) = role) then [r] else []))
    as Hfilter.
  { intros role. rewrite filter_app. f_equal.
    - apply filter_iff_elem_of. intros x Hx. unfold role_of; cbn.
      rewrite lookup_insert_ne; [done|]. intros ->.
      apply (proj1 (Forall_forall _ _) Hlive) in Hx as [? Hx]. congruence.
    - rewrite filter_cons, filter_nil. unfold role_of; cbn.
      rewrite lookup_insert_eq; cbn.
      repeat case_decide; try done; congruence. }
  erewrite bind_Return; cycle 1.
  { apply getAllPeopleByRole_Return; [apply lookup_insert_eq | by left | done]. }
  erewrite bind_Return; cycle 1.
  { apply getAllPeopleByRole_Return; [apply lookup_insert_eq | by right | done]. }
  cbn [University.this_people_push University_people]. unfold Array.push.
  rewrite !Hfilter. by eexists.
Qed.

(** X19: a student built by [new Student] and added to a university is a
    new object, and is from then on the last of the students the university
    returns, and not one of its teachers; a teacher built by [new Teacher]
    is the last of its teachers, and not one of its students. *)
Theorem new_people_are_listed_by_role
    (σ : Store) (this : ref) (u : University)
    (info : FullPersonInfo) (specializations : list string) :
  the_universities σ !! this = Some u →
  live (the_people σ) (University_people u) →
  ∃ students teachers : list ref,
    University.getAllPeopleByRole this Roles.student σ = Return students σ
    ∧ University.getAllPeopleByRole this Roles.teacher σ = Return teachers σ
    ∧ (∃ student σ',
         register_student this info σ
         = Return (student, students ++ [student], teachers) σ'
         ∧ student ∉ University_people u)
    ∧ (∃ teacher σ',
         register_teacher this info specializations σ
         = Return (teacher, students, teachers ++ [teacher]) σ'
         ∧ teacher ∉ University_people u).
Proof.
  intros Hu Hlive. do 2 eexists.
  split; [apply getAllPeopleByRole_Return; [done | by left | done]|].
  split; [apply getAllPeopleByRole_Return; [done | by right | done]|].
  pose proof (fresh_person_is_new σ) as Hnew.
  assert (fresh (dom (the_people σ)) ∉ University_people u) as Hnotin.
  { intros [? Hx]%(proj1 (Forall_forall _ _) Hlive). congruence. }
  split.
  - unfold register_student, Student.new, Person.constructor.
    unfold bind at 1 2. unfold alloc_people. cbn [set_nextId the_people].
    edestruct (ask_after_registering σ this u) as [σ' Hask]; [done..|].
    do 2 eexists. split; [|exact Hnotin].
    rewrite Hask. cbn. by rewrite app_nil_r.
  - unfold register_teacher, Teacher.new, Person.constructor.
    unfold bind at 1 2. unfold alloc_people. cbn [set_nextId the_people].
    edestruct (ask_after_registering σ this u) as [σ' Hask]; [done..|].
    do 2 eexists. split; [|exact Hnotin].
    rewrite Hask. cbn. by rewrite app_nil_r.
Qed.

(** A student and a teacher join the university of [campus]. *)
Lemma new_people_are_listed_by_role_witness :
  ∃ students teachers : list ref,
    University.getAllPeopleByRole 1 Roles.student campus = Return students campus
    ∧ University.getAllPeopleByRole 1 Roles.teacher campus = Return teachers campus
    ∧ (∃ student σ',
         register_student 1
           (mkFullPersonInfo "Di" "Poe" (mkDate 2002 8 1) "female"
              (email defaultContact) (phone defaultContact)) campus
         = Return (student, students ++ [student], teachers) σ'
         ∧ student ∉ [1; 2; 3]%positive)
    ∧ (∃ teacher σ',
         register_teacher 1
           (mkFullPersonInfo "Di" "Poe" (mkDate 2002 8 1) "female"
              (email defaultContact) (phone defaultContact)) ["Physics"] campus
         = Return (teacher, students, teachers ++ [teacher]) σ'
         ∧ teacher ∉ [1; 2; 3]%positive).
Proof.
  refine (new_people_are_listed_by_role campus 1
            (mkUniversity "KPI" [1; 2; 3]%positive [2; 1]%positive [1; 2; 3]%positive)
            _ _ eq_refl _).
  repeat constructor; by eexists.
Defined.

(** X20: a university just built has no people and no groups: it returns
    the empty array for either role and [undefined] for every course. *)
Theorem new_university_is_empty
    (σ : Store) (name role : string) (course : ref) :
  role = Roles.student ∨ role = Roles.teacher →
  ∃ σ', ask_new_university name role course σ = Return ([], None) σ'.
Proof.
  intros Hrole. unfold ask_new_university, University.new.
  unfold bind at 1. unfold alloc_university.
  erewrite bind_Return; cycle 1.
  { apply getAllPeopleByRole_Return; [apply lookup_insert_eq | done | constructor]. }
  erewrite bind_Return; cycle 1.
  { apply findGroupByCourse_Return; [apply lookup_insert_eq | constructor]. }
  by eexists.
Qed.

Lemma new_university_is_empty_witness :
  ∃ σ', ask_new_university "NaUKMA" "teacher" 1 campus = Return ([], None) σ'.
Proof. refine (new_university_is_empty campus _ _ _ (or_intror eq_refl)). Defined.

(** ** Identifiers are assigned by constructions only *)

Lemma same_ids_refl σ : same_ids σ σ.
Proof. by split. Qed.

Lemma same_ids_trans σ1 σ2 σ3 :
  same_ids σ1 σ2 → same_ids σ2 σ3 → same_ids σ1 σ3.
Proof.
  intros [Hn1 Hi1] [Hn2 Hi2]. split; [congruence|].
  intros r. by rewrite Hi2.
Qed.

Lemma keeps_ids_ret {A} (a : A) : keeps_ids (ret a).
Proof. intros σ. apply same_ids_refl. Qed.

Lemma keeps_ids_throw {A} (e : Exn) : keeps_ids (@throw A e).
Proof. intros σ. apply same_ids_refl. Qed.

Lemma keeps_ids_Stuck {A} : keeps_ids (λ _, @Stuck A).
Proof. by intros σ. Qed.

Lemma keeps_ids_bind {A B} (c : M A) (k : A → M B) :
  keeps_ids c → (∀ a, keeps_ids (k a)) → keeps_ids (bind c k).
Proof.
  intros Hc Hk σ. unfold bind. specialize (Hc σ).
  destruct (c σ) as [a σ1|e σ1|]; [|done..].
  specialize (Hk a σ1).
  destruct (k a σ1); [by eapply same_ids_trans..|done].
Qed.

Lemma keeps_ids_deref {A} (table : Store → gmap ref A) r :
  keeps_ids (deref table r).
Proof. intros σ. unfold deref. destruct (table σ !! r); [apply same_ids_refl | done]. Qed.

Lemma keeps_ids_alloc_course o : keeps_ids (alloc_course o).
Proof. by intros σ. Qed.

Lemma keeps_ids_alloc_group o : keeps_ids (alloc_group o).
Proof. by intros σ. Qed.

Lemma keeps_ids_alloc_university o : keeps_ids (alloc_university o).
Proof. by intros σ. Qed.

Lemma keeps_ids_update_university this f : keeps_ids (update_university this f).
Proof. intros σ. unfold update_university. by destruct (_ !! _). Qed.

Lemma keeps_ids_update_group this f : keeps_ids (update_group this f).
Proof. intros σ. unfold update_group. by destruct (_ !! _). Qed.

Lemma keeps_ids_update_teacher this f : keeps_ids (update_teacher this f).
Proof.
  intros σ. unfold update_teacher.
  destruct (the_people σ !! this) as [[| p t |]|] eqn:Ht; try done.
  split; [done|]. intros r. unfold id_of; cbn. rewrite lookup_insert.
  case_decide as Hr; [|done]. subst r. by rewrite Ht.
Qed.

Lemma keeps_ids_update_student this f : keeps_ids (update_student this f).
Proof.
  intros σ. unfold update_student.
  destruct (the_people σ !! this) as [[| |p s]|] eqn:Hs; try done.
  split; [done|]. intros r. unfold id_of; cbn. rewrite lookup_insert.
  case_decide as Hr; [|done]. subst r. by rewrite Hs.
Qed.

Section ArrayKeepsIds.
Context {A : Type}.

Lemma keeps_ids_find (callback : A → M bool) l :
  (∀ x, keeps_ids (callback x)) → keeps_ids (Array.find callback l).
Proof.
  intros Hc. induction l as [|x l IH]; [apply keeps_ids_ret|].
  apply keeps_ids_bind; [done|]. intros []; [apply keeps_ids_ret | done].
Qed.

Lemma keeps_ids_findIndex_from i (callback : A → M bool) l :
  (∀ x, keeps_ids (callback x)) → keeps_ids (Array.findIndex_from i callback l).
Proof.
  intros Hc. revert i. induction l as [|x l IH]; intros i; [apply keeps_ids_ret|].
  apply keeps_ids_bind; [done|]. intros []; [apply keeps_ids_ret | apply IH].
Qed.

Lemma keeps_ids_filter (callback : A → M bool) l :
  (∀ x, keeps_ids (callback x)) → keeps_ids (Array.filter callback l).
Proof.
  intros Hc. induction l as [|x l IH]; [apply keeps_ids_ret|].
  apply keeps_ids_bind; [done|]. intros b.
  apply keeps_ids_bind; [done|]. intros rest. apply keeps_ids_ret.
Qed.

Lemma keeps_ids_reduce {B} (callback : B → A → M B) initialValue l :
  (∀ acc x, keeps_ids (callback acc x)) →
  keeps_ids (Array.reduce callback initialValue l).
Proof.
  intros Hc. revert initialValue.
  induction l as [|x l IH]; intros acc; [apply keeps_ids_ret|].
  apply keeps_ids_bind; [done|]. intros acc'. apply IH.
Qed.
End ArrayKeepsIds.

(** [keeps_ids_step] splits a computation into the reads, writes and array
    methods it is made of. *)
Ltac keeps_ids_step :=
  first
    [ apply keeps_ids_ret | apply keeps_ids_throw | apply keeps_ids_Stuck
    | apply keeps_ids_deref
    | apply keeps_ids_alloc_course | apply keeps_ids_alloc_group
    | apply keeps_ids_alloc_university
    | apply keeps_ids_update_university | apply keeps_ids_update_group
    | apply keeps_ids_update_teacher | apply keeps_ids_update_student
    | apply keeps_ids_find; intros ?
    | apply keeps_ids_findIndex_from; intros ?
    | apply keeps_ids_filter; intros ?
    | apply keeps_ids_reduce; intros ? ?
    | apply keeps_ids_bind; [|intros ?]
    | match goal with
      | |- keeps_ids (if ?b then _ else _) => destruct b
      | |- keeps_ids (match ?x with _ => _ end) => destruct x
      end ].

(** X21: only the construction of a person assigns an identifier.  Every
    method, and the construction of a university, a course or a group,
    leaves [Person.nextId] and the identifier of every live person as it
    found them, whether it returns or throws. *)
Theorem identifiers_are_kept (c : Call) (σ : Store) :
  match call c σ with
  | Return _ σ' | Throw _ σ' =>
      Person_nextId σ' = Person_nextId σ ∧ ∀ r, id_of σ' r = id_of σ r
  | Stuck => True
  end.
Proof.
  revert σ. change (keeps_ids (call c)).
  destruct c; unfold call;
    unfold University.new, University.addCourse, University.addGroup,
      University.addPerson, University.findGroupByCourse,
      University.getAllPeopleByRole, University.assertNeverRole,
      Course.new, Group.new, Group.addStudent, Group.removeStudentById,
      Group.getAverageGroupScore, Group.getStudents, Group.getStudentById,
      Array.findIndex, Teacher.assignCourse, Teacher.removeCourse,
      Teacher.getCourses, Student.enrollCourse, Student.getAverageScore,
      Student.updateAcademicStatus, Student.getEnrolledCourses,
      the_person, the_teacher, the_student;
    repeat keeps_ids_step.
Qed.

(** ** New people *)

(** X22: a construction returns an object that was not there before and
    changes no other object: the new person has the counter for its
    identifier; a [Person] has the role it is given, a [Teacher] the role
    ["teacher"] and no courses, a [Student] the role ["student"], no
    courses, no credits and the status ["active"]. *)
Theorem constructions_are_fresh
    (σ : Store) (info : FullPersonInfo) (role : string)
    (specializations : list string) :
  let unchanged (r : ref) (σ' : Store) :=
    the_people σ !! r = None
    ∧ id_of σ' r = Some (Person_nextId σ)
    ∧ (∀ r', r' ≠ r → the_people σ' !! r' = the_people σ !! r')
    ∧ the_courses σ' = the_courses σ
    ∧ the_groups σ' = the_groups σ
    ∧ the_universities σ' = the_universities σ in
  (∃ r σ', Person.new info role σ = Return r σ'
           ∧ unchanged r σ' ∧ role_of σ' r = Some role)
  ∧ (∃ r σ', Teacher.new info specializations σ = Return r σ'
             ∧ unchanged r σ' ∧ role_of σ' r = Some Roles.teacher
             ∧ courses_of σ' r = Some [])
  ∧ (∃ r σ', Student.new info σ = Return r σ'
             ∧ unchanged r σ' ∧ role_of σ' r = Some Roles.student
             ∧ the_student_of σ' r
               = Some {| Student_academicPerformance :=
                           {| totalCredits := Number.of_Z 0; gpa := Number.of_Z 0 |};
                         Student_enrolledCourses := [];
                         Student_status := AcademicStatus.active |}).
Proof.
  intros unchanged. pose proof (fresh_person_is_new σ) as Hnew.
  assert (∀ o,
    Person_id (as_Person o) = Person_nextId σ →
    unchanged (fresh (dom (the_people σ)))
      (set_people (insert (fresh (dom (the_people σ))) o)
         (set_nextId (Number.increment (Person_nextId σ)) σ))) as Hunchanged.
  { intros o Ho. unfold unchanged, id_of; cbn. rewrite lookup_insert_eq; cbn.
    split_and!; [done | by rewrite Ho | | done..].
    intros r' Hr'. by rewrite lookup_insert_ne. }
  split_and!; do 2 eexists.
  - unfold Person.new, Person.constructor. unfold bind; cbn -[fresh].
    unfold alloc_people; cbn -[fresh].
    split; [done|]. split; [by apply Hunchanged|].
    unfold role_of; cbn -[fresh]. by rewrite lookup_insert_eq.
  - unfold Teacher.new, Person.constructor. unfold bind; cbn -[fresh].
    unfold alloc_people; cbn -[fresh].
    split; [done|]. split; [by apply Hunchanged|].
    unfold role_of, courses_of; cbn -[fresh]. by rewrite lookup_insert_eq.
  - unfold Student.new, Person.constructor. unfold bind; cbn -[fresh].
    unfold alloc_people; cbn -[fresh].
    split; [done|]. split; [by apply Hunchanged|].
    unfold role_of, the_student_of; cbn -[fresh]. by rewrite lookup_insert_eq.
Qed.

(** A student is built in [campus], where the counter is at 4. *)
Lemma constructions_are_fresh_witness :
  ∃ r σ',
    Student.new
      (mkFullPersonInfo "Di" "Poe" (mkDate 2002 8 1) "female"
         (email defaultContact) (phone defaultContact)) campus
    = Return r σ'
    ∧ the_people campus !! r = None
    ∧ id_of σ' r = Some 4
    ∧ role_of σ' r = Some "student".
Proof.
  destruct (constructions_are_fresh campus
              (mkFullPersonInfo "Di" "Poe" (mkDate 2002 8 1) "female"
                 (email defaultContact) (phone defaultContact))
              "student" [])
    as (_ & _ & r & σ' & Hnew & (Hfresh & Hid & _) & Hrole & _).
  exists r, σ'. auto.
Defined.

(** ** The credits of a student *)

Lemma credits_sum_snoc σ courses course c :
  the_courses σ !! course = Some c →
  credits_sum σ (courses ++ [course])
  = Number.add (credits_sum σ courses) (Course_credits c).
Proof.
  intros Hc. unfold credits_sum. rewrite fold_left_app. cbn. by rewrite Hc.
Qed.

Lemma student_call_keeps_credits σ this p s call :
  the_people σ !! this = Some (IsStudent p s) →
  live (the_courses σ) (enrolled_courses [call]) →
  totalCredits (Student_academicPerformance s)
  = credits_sum σ (Student_enrolledCourses s) →
  ∃ σ' s',
    try_catch (student_call this call) σ = Return tt σ'
    ∧ the_people σ' !! this = Some (IsStudent p s')
    ∧ the_courses σ' = the_courses σ
    ∧ totalCredits (Student_academicPerformance s')
      = credits_sum σ (Student_enrolledCourses s').
Proof.
  intros Hs Hlive Hsum. unfold try_catch. destruct call as [course|newStatus]; cbn.
  - apply Forall_cons in Hlive as [[c Hc] _].
    destruct (decide (Student_status s = AcademicStatus.active)) as [Hactive|Hnot].
    + rewrite (enrollCourse_Return _ _ _ _ _ _ Hs Hactive Hc).
      do 2 eexists. split_and!; [done|apply lookup_insert_eq|done|].
      cbn [enrolled Student_academicPerformance totalCredits
             Student_enrolledCourses].
      by rewrite (credits_sum_snoc _ _ _ _ Hc), Hsum.
    + unfold Student.enrollCourse. js_step.
      apply String.eqb_neq in Hnot as ->. by exists σ, s.
  - unfold Student.updateAcademicStatus.
    rewrite (update_student_Some _ _ _ _ _ Hs).
    do 2 eexists. split_and!; [done|apply lookup_insert_eq|done..].
Qed.

Lemma credits_sum_same_courses σ σ' courses :
  the_courses σ' = the_courses σ → credits_sum σ' courses = credits_sum σ courses.
Proof. intros H. unfold credits_sum. by rewrite H. Qed.

Lemma student_calls_keep_credits calls σ this p s :
  the_people σ !! this = Some (IsStudent p s) →
  live (the_courses σ) (enrolled_courses calls) →
  totalCredits (Student_academicPerformance s)
  = credits_sum σ (Student_enrolledCourses s) →
  ∃ σ' s',
    student_calls this calls σ = Return tt σ'
    ∧ the_people σ' !! this = Some (IsStudent p s')
    ∧ totalCredits (Student_academicPerformance s')
      = credits_sum σ (Student_enrolledCourses s').
Proof.
  revert σ s. induction calls as [|call calls IH]; intros σ s Hs Hlive Hsum.
  { by exists σ, s. }
  destruct (student_call_keeps_credits σ this p s call Hs)
    as (σ1 & s1 & Hrun & Hs1 & Hcourses & Hsum1); [|done|].
  { destruct call; [apply Forall_cons in Hlive as [? _]; by repeat constructor
                   | constructor]. }
  destruct (IH σ1 s1 Hs1) as (σ' & s' & Hrun' & Hs' & Hsum').
  { rewrite Hcourses. destruct call; [by apply Forall_cons in Hlive as [_ ?] | done]. }
  { by rewrite (credits_sum_same_courses _ _ _ Hcourses). }
  exists σ', s'. cbn [student_calls].
  rewrite (bind_Return _ _ _ _ _ Hrun). split_and!; [done..|].
  by rewrite <- (credits_sum_same_courses _ _ _ Hcourses).
Qed.

(** X23: [totalCredits] is the sum of the credits of [enrolledCourses].  In
    a student built by [new Student] and changed only by [enrollCourse] and
    [updateAcademicStatus] calls, whose exceptions the caller catches,
    [totalCredits] is what adding the credits of the enrolled courses in
    their order, from 0, gives. *)
Theorem totalCredits_is_the_sum
    (σ : Store) (info : FullPersonInfo) (calls : list StudentCall) :
  live (the_courses σ) (enrolled_courses calls) →
  ∃ (s : StudentFields) (σ' : Store),
    student_after info calls σ = Return s σ'
    ∧ totalCredits (Student_academicPerformance s)
      = credits_sum σ (Student_enrolledCourses s).
Proof.
  intros Hlive. unfold student_after, Student.new, Person.constructor.
  unfold bind at 1 2. unfold alloc_people.
  set (r := fresh _). set (p0 := mkPerson _ _ _ _ _ _ _).
  set (s0 := mkStudentFields _ _ _). set (σ0 := set_people _ _).
  destruct (student_calls_keep_credits calls σ0 r p0 s0)
    as (σ' & s' & Hrun & Hs' & Hsum); [apply lookup_insert_eq | done | done |].
  rewrite (bind_Return _ _ _ _ _ Hrun).
  exists s', σ'. split; [by apply the_student_Some in Hs'|].
  by rewrite Hsum.
Qed.

(** A new student of [campus] enrols in the courses of 5 and 3 credits, is
    expelled, and tries the course of 4 credits. *)
Lemma totalCredits_is_the_sum_witness :
  ∃ (s : StudentFields) (σ' : Store),
    student_after
      (mkFullPersonInfo "Di" "Poe" (mkDate 2002 8 1) "female"
         (email defaultContact) (phone defaultContact))
      [EnrollCourse 1; EnrollCourse 2; UpdateAcademicStatus "expelled"; EnrollCourse 3]
      campus
    = Return s σ'
    ∧ totalCredits (Student_academicPerformance s)
      = credits_sum campus (Student_enrolledCourses s).
Proof.
  refine (totalCredits_is_the_sum campus _ _ _).
  repeat constructor; by eexists.
Defined.
